(** * MikuMaid_reborn: the dual-mention hooks and the generated line script

    A shallow embedding of
      - [src/cogs/chat_hooks/teto_miku_interaction.py] (static script hook),
      - [src/cogs/chat_hooks/miku_fear_line_generator.py] (generated script),
    and the properties of their line expansion, parsing, pending table,
    trigger predicate and sequence runner.

    Conventions.  A Python [int] is a [Z].  A Python [str] is a [string]
    whose characters are the code points 0..255.  A [dict] keyed by channel
    id is a [gmap Z _], a [set] of channel ids a [gset Z].  A [while] loop
    that the source does not bound runs on fuel and answers [None] when the
    fuel is spent.  An exception is a value of a sum or of an outcome type. *)

From Stdlib Require Import ZArith String Ascii List Lia DecimalString.
From stdpp Require Import gmap strings list fin_maps.

Set Warnings "-register-all,-clear-no-such-hyp".
Local Open Scope Z_scope.

(** ** Python built-ins used by the hooks *)

Module Py.

(** [l[:t]] for a list: a negative bound counts from the end. *)
Definition slice_to {A : Type} (l : list A) (t : Z) : list A :=
  if 0 <=? t then take (Z.to_nat t) l
  else take (Z.to_nat (Z.of_nat (length l) + t)) l.

(** [len(l)] *)
Definition len {A : Type} (l : list A) : Z := Z.of_nat (length l).

(** [max(a, b)] on ints *)
Definition max (a b : Z) : Z := Z.max a b.

Definition code (c : ascii) : N := N_of_ascii c.

(** [c.isspace()], which is also the regular expression class [\s] on
    [str] patterns: TAB..CR, FS..US, SPACE, NEL and NBSP below 256. *)
Definition isspace (c : ascii) : bool :=
  let n := code c in
  ((9 <=? n) && (n <=? 13) || (28 <=? n) && (n <=? 32)
   || (n =? 133) || (n =? 160))%N.

(** [c.isdigit()] for a decimal digit, the class [\d] below 256. *)
Definition isdigit (c : ascii) : bool :=
  let n := code c in ((48 <=? n) && (n <=? 57))%N.

(** A line boundary of [str.splitlines]: LF, VT, FF, CR, FS, GS, RS, NEL. *)
Definition islinebreak (c : ascii) : bool :=
  let n := code c in
  ((10 <=? n) && (n <=? 13) || (28 <=? n) && (n <=? 30) || (n =? 133))%N.

Fixpoint lstrip (s : string) : string :=
  match s with
  | EmptyString => EmptyString
  | String c s' => if isspace c then lstrip s' else s
  end.

Fixpoint rstrip (s : string) : string :=
  match s with
  | EmptyString => EmptyString
  | String c s' =>
      match rstrip s' with
      | EmptyString => if isspace c then EmptyString else String c EmptyString
      | r => String c r
      end
  end.

(** [s.strip()] *)
Definition strip (s : string) : string := rstrip (lstrip s).

(** One character of [s.lower()]: A..Z, and the Latin-1 capitals
    0xC0..0xDE without the multiplication sign 0xD7, move up by 32. *)
Definition lower_char (c : ascii) : ascii :=
  let n := code c in
  if ((65 <=? n) && (n <=? 90)
      || (192 <=? n) && (n <=? 222) && negb (n =? 215))%N
  then ascii_of_N (n + 32) else c.

(** [s.lower()] *)
Fixpoint lower (s : string) : string :=
  match s with
  | EmptyString => EmptyString
  | String c s' => String (lower_char c) (lower s')
  end.

(** [s.startswith(p)] *)
Definition startswith (s p : string) : bool := String.prefix p s.

(** [needle in hay] on strings *)
Fixpoint contains (needle hay : string) : bool :=
  String.prefix needle hay ||
  match hay with
  | EmptyString => false
  | String _ hay' => contains needle hay'
  end.

(** [sep.join(l)] *)
Definition join (sep : string) (l : list string) : string :=
  String.concat sep l.

(** [s.replace(old, new)] for a non-empty [old]: occurrences are taken
    left to right without overlap; [skip] counts the characters of the
    occurrence just replaced that are still to be passed over. *)
Fixpoint replace_from (old new : string) (skip : nat) (s : string) : string :=
  match s with
  | EmptyString => EmptyString
  | String c s' =>
      match skip with
      | S k => replace_from old new k s'
      | O =>
          if String.prefix old s
          then new +:+ replace_from old new (String.length old - 1) s'
          else String c (replace_from old new 0 s')
      end
  end.

Definition replace (s old new : string) : string := replace_from old new 0 s.

(** [s.splitlines()]: [cur] is the line being read.  CR LF is one boundary
    and a trailing boundary opens no further line. *)
Fixpoint splitlines_from (cur : string) (s : string) : list string :=
  match s with
  | EmptyString =>
      match cur with EmptyString => [] | _ => [cur] end
  | String c s' =>
      if islinebreak c then
        match s' with
        | String c' s'' =>
            if ((code c =? 13) && (code c' =? 10))%N
            then cur :: splitlines_from EmptyString s''
            else cur :: splitlines_from EmptyString s'
        | EmptyString => cur :: splitlines_from EmptyString s'
        end
      else splitlines_from (cur +:+ String c EmptyString) s'
  end.

Definition splitlines (s : string) : list string :=
  splitlines_from EmptyString s.


(** [str(z)] for an int, as an f-string renders it. *)
Definition str_of_int (z : Z) : string := NilZero.string_of_int (Z.to_int z).

(** What an [await] or a call can end in, besides returning.  [Exception]
    and its subclasses are caught by [except Exception];
    [asyncio.CancelledError] derives from [BaseException] only. *)
Inductive exn : Type :=
| RuntimeError (msg : string)
| OtherException (msg : string)
| CancelledError.

Definition is_Exception (e : exn) : bool :=
  match e with
  | CancelledError => false
  | _ => true
  end.

(** The result of running a piece of code: a value, a raised exception,
    or a loop that outlived its fuel. *)
Inductive outcome (A : Type) : Type :=
| Returns (a : A)
| Raises (e : exn)
| OutOfFuel.
Arguments Returns {A} a.
Arguments Raises {A} e.
Arguments OutOfFuel {A}.

(** A decoded JSON document as the Python objects [json.loads] builds.
    A float keeps its 64 bits; a dict keeps its items, one per key. *)
Inductive pyobj : Type :=
| PyNone
| PyBool (b : bool)
| PyInt (z : Z)
| PyFloat (bits : Z)
| PyStr (s : string)
| PyList (items : list pyobj)
| PyDict (items : list (string * pyobj)).

(** [d.get(key)] *)
Fixpoint dict_get (key : string) (items : list (string * pyobj)) : option pyobj :=
  match items with
  | [] => None
  | (k, v) :: rest => if String.eqb k key then Some v else dict_get key rest
  end.

(** The interpreter's library functions that the hooks call and that are
    taken as given: [json.loads] ([None] stands for [JSONDecodeError]) and
    [repr] of floats and containers. *)
Record Runtime : Type := {
  json_loads : string -> option pyobj;
  repr : pyobj -> string;
}.

(** [str(o)] *)
Definition str (rt : Runtime) (o : pyobj) : string :=
  match o with
  | PyNone => "None"
  | PyBool true => "True"
  | PyBool false => "False"
  | PyInt z => str_of_int z
  | PyStr s => s
  | _ => repr rt o
  end.

End Py.

(** ** Line expansion

    [_expand_lines] occurs three times in the sources with the same body:
    [TetoMikuDualMentionHook._expand_lines] in teto_miku_interaction.py,
    and [MikuFearLineGenerator._expand_lines] and
    [TetoMikuDualMentionHook._expand_lines] in miku_fear_line_generator.py. *)

(** [while len(extended) < target_count: extended.extend(base_lines)] *)
Fixpoint extend_loop (fuel : nat) (base_lines extended : list string)
    (target_count : Z) : option (list string) :=
  if Py.len extended <? target_count then
    match fuel with
    | O => None
    | S fuel' => extend_loop fuel' base_lines (extended ++ base_lines) target_count
    end
  else Some extended.

Definition _expand_lines (fuel : nat) (base_lines : list string)
    (target_count : Z) : option (list string) :=
  if target_count <=? Py.len base_lines then
    Some (Py.slice_to base_lines target_count)
  else
    match extend_loop fuel base_lines base_lines target_count with
    | Some extended => Some (Py.slice_to extended target_count)
    | None => None
    end.

(** [k] copies of the base list laid end to end. *)
Definition cycle (k : nat) (base : list string) : list string :=
  concat (replicate k base).

(** ** Shared data: configuration and gateway messages *)

(** [time.monotonic()] readings and the timeout are Python floats.  The
    hooks only subtract two of them and compare the difference with [>];
    both operations are kept abstract, so that nothing proved below relies
    on how floating point rounds. *)
Class FloatOps : Type := {
  float : Type;
  fsub : float -> float -> float;
  fgt : float -> float -> bool;
}.

(** An integer tick clock, used to run the model on concrete readings. *)
Definition tick_clock : FloatOps :=
  {| float := Z; fsub := Z.sub; fgt := Z.gtb |}.

(** The fields of [config.Settings] that the hooks read;
    [teto_wait_miku_timeout_seconds] is kept after its [float(...)]. *)
Record Settings `{FloatOps} : Type := {
  dual_mention_hook_enabled : bool;
  teto_bot_id : Z;
  miku_bot_id : Z;
  teto_wait_miku_timeout_seconds : float;
  teto_fear_message_count : Z;
}.

(** [discord.User] / [discord.Member] *)
Record User : Type := {
  user_id : Z;
  user_bot : bool;
}.

(** [discord.Message], with [message.channel.id] as [channel_id]. *)
Record Message : Type := {
  message_id : Z;
  channel_id : Z;
  author : User;
  mentions : list User;
  content : string;
  clean_content : string;
}.

(** What one [await] on the gateway (typing indicator, sleep, send) does. *)
Inductive await_result : Type :=
| Resumed
| Raised (e : Py.exn).

(** What the gateway and the console saw, in order.  A delivery is logged
    with the Active-Channel Set as it stood when the line went out. *)
Inductive event : Type :=
| Typing (channel : Z)
| Slept (milliseconds : Z)
| Sent (channel : Z) (line : string) (active_then : gset Z)
| Printed (text : string).




(** ** miku_fear_line_generator.py: the generated script *)

Module MikuFearLineGenerator.
Import Py.

Section WithFloat.
Context `{FloatOps}.

Record t : Type := {
  client_generate : string -> outcome string;
  settings : Settings;
  normalize_model_reply : string -> string;
}.

(** [HOOK_LINE_PREFIX_PATTERN.sub] for the pattern
    [^\s*(?:[-*]|\d+[.)])\s*]: anchored at the start, so at most one match;
    each greedy star is followed by a class disjoint from it, so the match
    is found without backtracking. *)
Fixpoint skip_digits (s : string) : string :=
  match s with
  | EmptyString => EmptyString
  | String c s' => if isdigit c then skip_digits s' else s
  end.

Definition sub_line_prefix (raw_line : string) : string :=
  match lstrip raw_line with
  | EmptyString => raw_line
  | String c rest =>
      if ((code c =? 45) || (code c =? 42))%N then lstrip rest
      else if isdigit c then
        match skip_digits rest with
        | EmptyString => raw_line
        | String d rest' =>
            if ((code d =? 46) || (code d =? 41))%N then lstrip rest'
            else raw_line
        end
      else raw_line
  end.

Definition nonempty (s : string) : bool :=
  match s with EmptyString => false | _ => true end.

(** The plain-text path: the loop over [candidate.splitlines()]. *)
Definition plain_lines (candidate : string) : list string :=
  filter (fun cleaned => nonempty cleaned = true)
    (map (fun raw_line => strip (sub_line_prefix raw_line))
       (splitlines candidate)).

Definition _extract_lines_from_text (rt : Runtime) (text : string) : list string :=
  let candidate := strip text in
  let stripped_items (items : list pyobj) :=
    map (fun item => strip (str rt item)) items in
  let '(parsed_lines, candidate) :=
    if startswith candidate "[" || startswith candidate "{" then
      match json_loads rt candidate with
      | Some (PyList items) => (stripped_items items, candidate)
      | Some (PyDict decoded) =>
          match dict_get "lines" decoded with
          | Some (PyList items) => (stripped_items items, candidate)
          | _ =>
              match dict_get "answer" decoded with
              | Some (PyStr answer_obj) => ([], answer_obj)
              | _ => ([], candidate)
              end
          end
      | _ => ([], candidate)
      end
    else ([], candidate) in
  let parsed_lines :=
    match parsed_lines with
    | [] => plain_lines (strip (replace candidate "```" EmptyString))
    | _ => parsed_lines
    end in
  filter (fun line => nonempty line = true) parsed_lines.

(** [MATERIAL_WORD_PATTERN.findall(text)] for [[A-Za-z0-9']{4,}]: the
    maximal runs of word characters that are at least four long. *)
Definition is_material_char (c : ascii) : bool :=
  let n := code c in
  ((65 <=? n) && (n <=? 90) || (97 <=? n) && (n <=? 122)
   || (48 <=? n) && (n <=? 57) || (n =? 39))%N.

Definition close_run (run : string) : list string :=
  if (4 <=? String.length run)%nat then [run] else [].

Fixpoint findall_from (run : string) (s : string) : list string :=
  match s with
  | EmptyString => close_run run
  | String c s' =>
      if is_material_char c then findall_from (run +:+ String c EmptyString) s'
      else close_run run ++ findall_from EmptyString s'
  end.

(** A line with text in it and no white space at either end. *)
Definition clean_line (line : string) : Prop :=
  line <> EmptyString /\ strip line = line.

(** A match of the word pattern somewhere in [text]. *)
Definition material_word_in (text : string) (w : string) : Prop :=
  (4 <= String.length w)%nat
  /\ Forall (fun c => is_material_char c = true) (list_ascii_of_string w)
  /\ exists a b, text = a +:+ w +:+ b.

Definition MATERIAL_STOPWORDS : list string :=
  ["this"; "that"; "with"; "from"; "your"; "have"; "will"; "just"; "what";
   "when"; "where"; "which"; "about"; "please"].

Definition str_in (w : string) (l : list string) : bool :=
  existsb (String.eqb w) l.

Fixpoint collect_material (raw_words material : list string) : list string :=
  match raw_words with
  | [] => material
  | word :: rest =>
      if str_in word MATERIAL_STOPWORDS then collect_material rest material
      else if str_in word material then collect_material rest material
      else
        let material' := material ++ [word] in
        if 8 <=? len material' then material'
        else collect_material rest material'
  end.

Definition _extract_material_words (text : string) : list string :=
  collect_material (findall_from EmptyString (lower text)) [].

Definition _has_material_overlap (lines material_words : list string) : bool :=
  let haystack := lower (join " " lines) in
  existsb (fun word => contains word haystack) (slice_to material_words 5).

Definition mention_token (required_mention_id : Z) : string :=
  "<@" +:+ str_of_int required_mention_id +:+ ">".

Definition empty_output : exn :=
  RuntimeError "Hook line generator returned empty output.".
Definition unparseable_output : exn :=
  RuntimeError "Hook line generator returned unparseable output.".
Definition ignored_material : exn :=
  RuntimeError "Hook line generator ignored user material words.".

(** [lines[0] = f"{mention_token} {lines[0]}"] when the joined text lacks
    the token. *)
Definition with_mention (token : string) (lines : list string) : list string :=
  if negb (contains token (join " " lines)) then
    match lines with
    | [] => []
    | first :: rest => (token +:+ " " +:+ first) :: rest
    end
  else lines.

Definition _parse_lines (self : t) (rt : Runtime) (fuel : nat)
    (raw_output : string) (line_count : Z) (required_mention_id : Z)
    (material_words : list string) : outcome (list string) :=
  let normalized := strip (normalize_model_reply self raw_output) in
  if negb (nonempty normalized) then Raises empty_output
  else
    let lines := _extract_lines_from_text rt normalized in
    match lines with
    | [] => Raises unparseable_output
    | _ =>
        let lines := with_mention (mention_token required_mention_id) lines in
        if match material_words with [] => false | _ => true end
           && negb (_has_material_overlap lines material_words)
        then Raises ignored_material
        else
          match _expand_lines fuel lines line_count with
          | Some expanded => Returns expanded
          | None => OutOfFuel
          end
    end.




End WithFloat.
End MikuFearLineGenerator.

(** ** The sequenced output runner

    [_run_sequence] has the same body in both hook classes.  The run
    suspends three times per line: entering [channel.typing()], the
    [asyncio.sleep] inside it, and [channel.send].  [gw k] is what the
    [k]-th suspension of the run resumes with. *)

Definition gateway : Type := nat -> await_result.

(** The [for index, line in enumerate(lines)] loop; the result is the
    exception that left the loop, if any. *)
Fixpoint deliver_lines (gw : gateway) (k index : nat) (channel : Z)
    (lines : list string) (active : gset Z) : list event * option Py.exn :=
  match lines with
  | [] => ([], None)
  | line :: rest =>
      let delay_ms := if (index =? 0)%nat then 800 else 1200 in
      match gw k with
      | Raised e => ([], Some e)
      | Resumed =>
          match gw (k + 1)%nat with
          | Raised e => ([Typing channel], Some e)
          | Resumed =>
              match gw (k + 2)%nat with
              | Raised e => ([Typing channel; Slept delay_ms], Some e)
              | Resumed =>
                  let '(trace, exc) :=
                    deliver_lines gw (k + 3) (S index) channel rest active in
                  (Typing channel :: Slept delay_ms :: Sent channel line active
                     :: trace, exc)
              end
          end
      end
  end.

Definition sequence_failure (channel trigger_message_id : Z) (exc : string)
    : string :=
  "[teto-miku-hook] failed to run sequence (channel=" +:+ Py.str_of_int channel
  +:+ ", trigger=" +:+ Py.str_of_int trigger_message_id +:+ "): " +:+ exc.

(** [str(exc)] *)
Definition exn_text (e : Py.exn) : string :=
  match e with
  | Py.RuntimeError msg => msg
  | Py.OtherException msg => msg
  | Py.CancelledError => EmptyString
  end.

(** [_run_sequence] on the Active-Channel Set: [add], then the loop under
    [try], [except Exception] with its [print], and [discard] in [finally]. *)
Definition run_sequence_on (gw : gateway) (channel trigger_message_id : Z)
    (lines : list string) (active : gset Z)
    : gset Z * list event * Py.outcome unit :=
  let active := {[channel]} ∪ active in
  let '(trace, exc) := deliver_lines gw 0 0 channel lines active in
  let '(trace, result) :=
    match exc with
    | None => (trace, Py.Returns tt)
    | Some e =>
        if Py.is_Exception e then
          (trace ++ [Printed (sequence_failure channel trigger_message_id
                                (exn_text e))],
           Py.Returns tt)
        else (trace, Py.Raises e)
    end in
  (active ∖ {[channel]}, trace, result).

(** [template.format(name=value)] for a template whose only braces are the
    placeholder [{name}]. *)
Definition format_id (template name : string) (value : Z) : string :=
  Py.replace template ("{" +:+ name +:+ "}") (Py.str_of_int value).

(** [_is_dual_mention_trigger], the same body in both hook classes. *)
Definition is_dual_mention_trigger_on `{FloatOps} (settings : Settings)
    (message : Message) : bool :=
  let mention_ids : gset Z := list_to_set (map user_id (mentions message)) in
  bool_decide (teto_bot_id settings ∈ mention_ids)
  && bool_decide (miku_bot_id settings ∈ mention_ids).

(** ** teto_miku_interaction.py: the static-script hook *)

Module StaticHook.
Import Py.

Section WithFloat.
Context `{FloatOps}.

Record PendingDualMention : Type := {
  created_at : float;
  trigger_message_id : Z;
}.

(** A scheduled [_run_sequence(...)] coroutine with its arguments. *)
Record SequenceTask : Type := {
  task_channel_id : Z;
  task_trigger_message_id : Z;
  task_lines : list string;
}.

(** [self]: [bot.user], the settings, and the three mutable fields.  The
    task set holds distinct task objects and is kept in creation order. *)
Record t : Type := {
  bot_user : option User;
  settings : Settings;
  pending_by_channel : gmap Z PendingDualMention;
  active_channels : gset Z;
  _tasks : list SequenceTask;
}.

Definition TETO_FEAR_LINES : list string :=
  ["Oh... <@{miku_id}>, you are here too?";
   "I heard you, Miku. You speak first...";
   "Wait, please do not look at me like that...";
   "I will behave, I am not messing around...";
   "Can I stand a bit farther away...?";
   "Okay... I will answer after you...";
   "Alright, I will be good. Please do not scold me..."].

Definition MIKU_TEASE_LINES : list string :=
  ["Hey <@{teto_id}>, relax. I run this chat now.";
   "If there is drama, I will win it in one verse.";
   "Teto, keep up. English mode is on.";
   "User tagged both of us, so I speak first as usual.";
   "No panic. Follow my tempo.";
   "Stay sharp, Kasane. I am watching.";
   "Alright chat, Miku has the floor."].

Definition set_pending (self : t) (p : gmap Z PendingDualMention) : t :=
  {| bot_user := bot_user self; settings := settings self;
     pending_by_channel := p; active_channels := active_channels self;
     _tasks := _tasks self |}.

Definition set_active (self : t) (a : gset Z) : t :=
  {| bot_user := bot_user self; settings := settings self;
     pending_by_channel := pending_by_channel self; active_channels := a;
     _tasks := _tasks self |}.

(** [self._tasks.add(task)] *)
Definition add_task (self : t) (task : SequenceTask) : t :=
  {| bot_user := bot_user self; settings := settings self;
     pending_by_channel := pending_by_channel self;
     active_channels := active_channels self;
     _tasks := _tasks self ++ [task] |}.

Definition is_stale (now timeout : float) (pending : PendingDualMention) : bool :=
  fgt (fsub now (created_at pending)) timeout.

(** [now] is the reading of [time.monotonic()]. *)
Definition _expire_pending (self : t) (now : float) : t :=
  let timeout := teto_wait_miku_timeout_seconds (settings self) in
  let expired_channels :=
    map fst
      (filter (fun item => is_stale now timeout (snd item) = true)
         (map_to_list (pending_by_channel self))) in
  set_pending self
    (foldl (fun pending channel => delete channel pending)
       (pending_by_channel self) expired_channels).

(** [self.pending_by_channel.pop(channel_id, None)] *)
Definition pop_pending (self : t) (channel : Z)
    : option PendingDualMention * t :=
  (pending_by_channel self !! channel,
   set_pending self (delete channel (pending_by_channel self))).

Definition _is_dual_mention_trigger (self : t) (message : Message) : bool :=
  is_dual_mention_trigger_on (settings self) message.

Definition _build_teto_fear_lines (self : t) (fuel : nat) : option (list string) :=
  let target_count := max 1 (teto_fear_message_count (settings self)) in
  let base_lines :=
    map (fun template =>
           format_id template "miku_id" (miku_bot_id (settings self)))
      TETO_FEAR_LINES in
  _expand_lines fuel base_lines target_count.

Definition _build_miku_tease_lines (self : t) (fuel : nat) : option (list string) :=
  let target_count := max 1 (teto_fear_message_count (settings self)) in
  let base_lines :=
    map (fun template =>
           format_id template "teto_id" (teto_bot_id (settings self)))
      MIKU_TEASE_LINES in
  _expand_lines fuel base_lines target_count.

Definition _handle_teto_bot_message (self : t) (fuel : nat) (message : Message)
    : option (bool * t) :=
  if negb (user_id (author message) =? miku_bot_id (settings self)) then
    Some (false, self)
  else
    match pop_pending self (channel_id message) with
    | (None, self) => Some (false, self)
    | (Some pending, self) =>
        match _build_teto_fear_lines self fuel with
        | None => None
        | Some lines =>
            let task :=
              {| task_channel_id := channel_id message;
                 task_trigger_message_id := trigger_message_id pending;
                 task_lines := lines |} in
            Some (false, add_task self task)
        end
    end.

(** [now] is the reading of [time.monotonic()] taken when the entry is
    recorded. *)
Definition _handle_as_teto (self : t) (now : float) (fuel : nat)
    (message : Message) : option (bool * t) :=
  if user_bot (author message) then _handle_teto_bot_message self fuel message
  else if _is_dual_mention_trigger self message then
    Some (true,
          set_pending self
            (<[channel_id message :=
                 {| created_at := now;
                    trigger_message_id := message_id message |}]>
               (pending_by_channel self)))
  else Some (false, self).

Definition _handle_as_miku (self : t) (fuel : nat) (message : Message)
    : option (bool * t) :=
  if user_bot (author message) then Some (false, self)
  else if negb (_is_dual_mention_trigger self message) then Some (false, self)
  else
    match _build_miku_tease_lines self fuel with
    | None => None
    | Some lines =>
        let task :=
          {| task_channel_id := channel_id message;
             task_trigger_message_id := message_id message;
             task_lines := lines |} in
        Some (true, add_task self task)
    end.

(** [handle_message]: [now_sweep] and [now_record] are the two readings of
    the monotonic clock that one pass can take; [None] is spent fuel. *)
Definition handle_message (self : t) (now_sweep now_record : float)
    (fuel : nat) (message : Message) : option (bool * t) :=
  if negb (dual_mention_hook_enabled (settings self)) then Some (false, self)
  else
    match bot_user self with
    | None => Some (false, self)
    | Some me =>
        let self := _expire_pending self now_sweep in
        if bool_decide (channel_id message ∈ active_channels self) then
          Some (false, self)
        else if user_id me =? teto_bot_id (settings self) then
          _handle_as_teto self now_record fuel message
        else if user_id me =? miku_bot_id (settings self) then
          _handle_as_miku self fuel message
        else Some (false, self)
    end.

Definition _run_sequence (self : t) (gw : gateway)
    (channel trigger_message_id : Z) (lines : list string)
    : t * list event * outcome unit :=
  let '(active, trace, result) :=
    run_sequence_on gw channel trigger_message_id lines (active_channels self) in
  (set_active self active, trace, result).

End WithFloat.
End StaticHook.

(** ** miku_fear_line_generator.py: the hook that asks for a generated script *)

Module GeneratedHook.
Import Py.

Section WithFloat.
Context `{FloatOps}.

(** [self]; a task of the set is a scheduled [_run_miku_sequence(message)]. *)
Record t : Type := {
  bot_user : option User;
  settings : Settings;
  build_miku_tease_lines : option (Message -> Z -> outcome (list string));
  active_channels : gset Z;
  _tasks : list Message;
}.

Definition set_active (self : t) (a : gset Z) : t :=
  {| bot_user := bot_user self; settings := settings self;
     build_miku_tease_lines := build_miku_tease_lines self;
     active_channels := a; _tasks := _tasks self |}.

Definition add_task (self : t) (task : Message) : t :=
  {| bot_user := bot_user self; settings := settings self;
     build_miku_tease_lines := build_miku_tease_lines self;
     active_channels := active_channels self;
     _tasks := _tasks self ++ [task] |}.

Definition _is_dual_mention_trigger (self : t) (message : Message) : bool :=
  is_dual_mention_trigger_on (settings self) message.

Definition _handle_as_miku (self : t) (message : Message) : bool * t :=
  if user_bot (author message) then (false, self)
  else if negb (_is_dual_mention_trigger self message) then (false, self)
  else (true, add_task self message).

Definition handle_message (self : t) (message : Message) : bool * t :=
  if negb (dual_mention_hook_enabled (settings self)) then (false, self)
  else
    match bot_user self with
    | None => (false, self)
    | Some me =>
        if negb (user_id me =? miku_bot_id (settings self)) then (false, self)
        else if bool_decide (channel_id message ∈ active_channels self) then
          (false, self)
        else _handle_as_miku self message
    end.

Definition _run_sequence (self : t) (gw : gateway)
    (channel trigger_message_id : Z) (lines : list string)
    : t * list event * outcome unit :=
  let '(active, trace, result) :=
    run_sequence_on gw channel trigger_message_id lines (active_channels self) in
  (set_active self active, trace, result).

Definition _build_miku_tease_lines (self : t) (fuel : nat) (message : Message)
    : list event * outcome (list string) :=
  let target_count := max 1 (teto_fear_message_count (settings self)) in
  match build_miku_tease_lines self with
  | None =>
      ([Printed "[teto-miku-hook] API-only tease mode: missing generator callback."],
       Returns [])
  | Some callback =>
      match callback message target_count with
      | Returns dynamic_lines =>
          let normalized :=
            map strip
              (filter (fun line =>
                         MikuFearLineGenerator.nonempty (strip line) = true)
                 dynamic_lines) in
          match normalized with
          | [] => ([], Returns [])
          | _ =>
              match _expand_lines fuel normalized target_count with
              | Some lines => ([], Returns lines)
              | None => ([], OutOfFuel)
              end
          end
      | Raises exc =>
          if is_Exception exc then
            ([Printed ("[teto-miku-hook] tease generation failed: "
                       +:+ exn_text exc)],
             Returns [])
          else ([], Raises exc)
      | OutOfFuel => ([], OutOfFuel)
      end
  end.

Definition _run_miku_sequence (self : t) (gw : gateway) (fuel : nat)
    (message : Message) : t * list event * outcome unit :=
  match _build_miku_tease_lines self fuel message with
  | (printed, Returns []) => (self, printed, Returns tt)
  | (printed, Returns lines) =>
      let '(self, trace, result) :=
        _run_sequence self gw (channel_id message) (message_id message) lines in
      (self, printed ++ trace, result)
  | (printed, Raises exc) => (self, printed, Raises exc)
  | (printed, OutOfFuel) => (self, printed, OutOfFuel)
  end.

End WithFloat.
End GeneratedHook.

(** ** memory_store.py: the short-term memory store

    The SQLite database is the record of its three tables.  [chat_memory]
    is the list of its rows in rowid order, so [ORDER BY id DESC] reads it
    backwards; [chat_memory_seq] is the [AUTOINCREMENT] counter, the largest
    id handed out so far.  The two tables with the primary key
    [(guild_id, user_id)] are maps on that pair.  [CURRENT_TIMESTAMP] is a
    count of seconds passed in as [now]; SQLite writes it as a
    fixed-width text whose order is the order of time.  The lock serialises
    the operations, which are modelled one at a time. *)

Module ShortTermMemoryStore.

Record ChatRow : Type := {
  row_id : Z;
  row_channel_id : Z;
  row_role : string;
  row_content : string;
  row_created_at : Z;
}.

Record BanRow : Type := {
  banned_by : option Z;
  reason : option string;
  ban_created_at : Z;
  ban_updated_at : Z;
}.

Record PrefRow : Type := {
  user_calls_miku : option string;
  miku_calls_user : option string;
  pref_created_at : Z;
  pref_updated_at : Z;
}.

Record Database : Type := {
  chat_memory : list ChatRow;
  chat_memory_seq : Z;
  bot_banned_users : gmap (Z * Z) BanRow;
  user_call_preferences : gmap (Z * Z) PrefRow;
}.

(** A database file that does not exist yet, after the [CREATE TABLE IF
    NOT EXISTS] statements. *)
Definition empty_database : Database :=
  {| chat_memory := []; chat_memory_seq := 0;
     bot_banned_users := ∅; user_call_preferences := ∅ |}.

(** [self]: the message bound and the connection. *)
Record t : Type := {
  max_messages : Z;
  _conn : option Database;
}.

Inductive error : Type :=
| ValueError (msg : string)
| RuntimeError (msg : string).

Inductive result (A : Type) : Type :=
| Ok (a : A)
| Err (e : error).
Arguments Ok {A} a.
Arguments Err {A} e.

(** An entry of the history, [{"role": ..., "content": ...}]. *)
Record Turn : Type := {
  role : string;
  content : string;
}.


(** [__init__] *)
Definition init (max_history_turns : Z) : t :=
  {| max_messages := Py.max 2 (max_history_turns * 2); _conn := None |}.

(** [initialize]: [disk] is the database found at [db_path]; the tables
    and indexes are created only where missing. *)
Definition initialize (self : t) (disk : Database) : t :=
  {| max_messages := max_messages self; _conn := Some disk |}.

Definition close (self : t) : t :=
  {| max_messages := max_messages self; _conn := None |}.

Definition _require_conn (self : t) : result Database :=
  match _conn self with
  | None => Err (RuntimeError "Memory store is not initialized")
  | Some conn => Ok conn
  end.

Definition with_conn (self : t) (conn : Database) : t :=
  {| max_messages := max_messages self; _conn := Some conn |}.

Definition set_chat_memory (db : Database) (rows : list ChatRow) (seq : Z)
    : Database :=
  {| chat_memory := rows; chat_memory_seq := seq;
     bot_banned_users := bot_banned_users db;
     user_call_preferences := user_call_preferences db |}.

Definition set_banned (db : Database) (m : gmap (Z * Z) BanRow) : Database :=
  {| chat_memory := chat_memory db; chat_memory_seq := chat_memory_seq db;
     bot_banned_users := m;
     user_call_preferences := user_call_preferences db |}.

Definition set_preferences (db : Database) (m : gmap (Z * Z) PrefRow)
    : Database :=
  {| chat_memory := chat_memory db; chat_memory_seq := chat_memory_seq db;
     bot_banned_users := bot_banned_users db;
     user_call_preferences := m |}.

(** [WHERE channel_id = ?] *)
Definition in_channel (channel_id : Z) (row : ChatRow) : bool :=
  row_channel_id row =? channel_id.

Definition channel_rows (db : Database) (channel_id : Z) : list ChatRow :=
  filter (fun row => in_channel channel_id row = true) (chat_memory db).

(** [LIMIT limit OFFSET offset] on rows already in order: a negative
    limit is no limit, a negative offset is 0. *)
Definition limit_offset {A : Type} (limit offset : Z) (rows : list A) : list A :=
  let rest := drop (Z.to_nat offset) rows in
  if limit <? 0 then rest else take (Z.to_nat limit) rest.

(** [INSERT INTO chat_memory (channel_id, role, content)] *)
Definition insert_chat (db : Database) (now channel_id : Z)
    (role content : string) : Database :=
  let id := chat_memory_seq db + 1 in
  set_chat_memory db
    (chat_memory db
     ++ [{| row_id := id; row_channel_id := channel_id; row_role := role;
            row_content := content; row_created_at := now |}])
    id.

Definition _trim_channel (self : t) (conn : Database) (channel_id : Z)
    : Database :=
  match limit_offset 1 (max_messages self - 1)
          (reverse (channel_rows conn channel_id)) with
  | [] => conn
  | row :: _ =>
      let cutoff_id := row_id row in
      set_chat_memory conn
        (filter (fun r => ~ (in_channel channel_id r = true
                             /\ row_id r < cutoff_id))
           (chat_memory conn))
        (chat_memory_seq conn)
  end.

Definition append_message (self : t) (now channel_id : Z)
    (role content : string) : result t :=
  if negb (String.eqb role "user" || String.eqb role "assistant") then
    Err (ValueError ("Invalid role: " +:+ role))
  else
    match _require_conn self with
    | Err e => Err e
    | Ok conn =>
        let conn := insert_chat conn now channel_id role content in
        Ok (with_conn self (_trim_channel self conn channel_id))
    end.

Definition get_history (self : t) (channel_id : Z) : result (list Turn) :=
  match _require_conn self with
  | Err e => Err e
  | Ok conn =>
      let rows :=
        limit_offset (max_messages self) 0
          (reverse (channel_rows conn channel_id)) in
      Ok (map (fun row => {| role := row_role row; content := row_content row |})
            (reverse rows))
  end.

Definition clear_channel (self : t) (channel_id : Z) : result t :=
  match _require_conn self with
  | Err e => Err e
  | Ok conn =>
      Ok (with_conn self
            (set_chat_memory conn
               (filter (fun row => ~ (in_channel channel_id row = true))
                  (chat_memory conn))
               (chat_memory_seq conn)))
  end.

Definition ban_user (self : t) (now guild_id user_id : Z)
    (banned_by : option Z) (reason : option string) : result (bool * t) :=
  match _require_conn self with
  | Err e => Err e
  | Ok conn =>
      let key := (guild_id, user_id) in
      let existed := bool_decide (is_Some (bot_banned_users conn !! key)) in
      let row :=
        match bot_banned_users conn !! key with
        | Some old =>
            {| banned_by := banned_by; reason := reason;
               ban_created_at := ban_created_at old; ban_updated_at := now |}
        | None =>
            {| banned_by := banned_by; reason := reason;
               ban_created_at := now; ban_updated_at := now |}
        end in
      Ok (negb existed,
          with_conn self
            (set_banned conn (<[key := row]> (bot_banned_users conn))))
  end.

Definition unban_user (self : t) (guild_id user_id : Z) : result (bool * t) :=
  match _require_conn self with
  | Err e => Err e
  | Ok conn =>
      let key := (guild_id, user_id) in
      let affected : Z :=
        if bool_decide (is_Some (bot_banned_users conn !! key)) then 1 else 0 in
      Ok (0 <? affected,
          with_conn self (set_banned conn (delete key (bot_banned_users conn))))
  end.

Definition is_user_banned (self : t) (guild_id user_id : Z) : result bool :=
  match _require_conn self with
  | Err e => Err e
  | Ok conn =>
      Ok (bool_decide (is_Some (bot_banned_users conn !! (guild_id, user_id))))
  end.

Definition set_user_calls_miku (self : t) (now guild_id user_id : Z)
    (call_name : string) : result t :=
  match _require_conn self with
  | Err e => Err e
  | Ok conn =>
      let key := (guild_id, user_id) in
      let row :=
        match user_call_preferences conn !! key with
        | Some old =>
            {| user_calls_miku := Some call_name;
               miku_calls_user := miku_calls_user old;
               pref_created_at := pref_created_at old;
               pref_updated_at := now |}
        | None =>
            {| user_calls_miku := Some call_name; miku_calls_user := None;
               pref_created_at := now; pref_updated_at := now |}
        end in
      Ok (with_conn self
            (set_preferences conn (<[key := row]> (user_call_preferences conn))))
  end.

Definition set_miku_calls_user (self : t) (now guild_id user_id : Z)
    (call_name : string) : result t :=
  match _require_conn self with
  | Err e => Err e
  | Ok conn =>
      let key := (guild_id, user_id) in
      let row :=
        match user_call_preferences conn !! key with
        | Some old =>
            {| user_calls_miku := user_calls_miku old;
               miku_calls_user := Some call_name;
               pref_created_at := pref_created_at old;
               pref_updated_at := now |}
        | None =>
            {| user_calls_miku := None; miku_calls_user := Some call_name;
               pref_created_at := now; pref_updated_at := now |}
        end in
      Ok (with_conn self
            (set_preferences conn (<[key := row]> (user_call_preferences conn))))
  end.

Definition get_user_call_preferences (self : t) (guild_id user_id : Z)
    : result (option string * option string) :=
  match _require_conn self with
  | Err e => Err e
  | Ok conn =>
      match user_call_preferences conn !! (guild_id, user_id) with
      | None => Ok (None, None)
      | Some row => Ok (user_calls_miku row, miku_calls_user row)
      end
  end.

(** [GROUP BY channel_id HAVING MAX(created_at) < datetime('now', ?)]:
    the channel has rows and all of them are older than the bound. *)
Definition channel_idle (rows : list ChatRow) (bound channel_id : Z) : bool :=
  forallb (fun row => negb (in_channel channel_id row)
                      || (row_created_at row <? bound)) rows.

Definition prune_inactive_channels (self : t) (now idle_seconds : Z)
    : result t :=
  if idle_seconds <=? 0 then Ok self
  else
    match _require_conn self with
    | Err e => Err e
    | Ok conn =>
        let bound := now - idle_seconds in
        Ok (with_conn self
              (set_chat_memory conn
                 (filter (fun row =>
                            channel_idle (chat_memory conn) bound
                              (row_channel_id row) = false)
                    (chat_memory conn))
                 (chat_memory_seq conn)))
    end.




End ShortTermMemoryStore.

(** ** logger/chat_logger.py: the replay log

    The log file is its text, or [None] while the path does not exist.  The
    generator [_iter_chat_records_sync] is the list of what it yields; the
    loops that read it stop where the source's loops stop. *)

Module ChatReplayLogger.
Import Py.

(** What the log needs from the interpreter besides [Py.Runtime]:
    [float == int] on a float given by its bits, and
    [json.dumps(record, ensure_ascii=False)]. *)
Record Env : Type := {
  runtime : Runtime;
  float_eq_int : Z -> Z -> bool;
  json_dumps : pyobj -> string;
}.

(** [self] *)
Record t : Type := {
  log_file : option string;
  _next_id : Z;
}.

(** [__init__], with the file as it is on disk. *)
Definition init (file : option string) : t :=
  {| log_file := file; _next_id := 1 |}.

Definition lf : ascii := ascii_of_N 10.
Definition cr : ascii := ascii_of_N 13.

(** [for raw in fp] on a file opened in text mode: LF, CR and CR LF end a
    line and are read as LF; [cur] is the line being read. *)
Fixpoint lines_from (cur : string) (s : string) : list string :=
  match s with
  | EmptyString => match cur with EmptyString => [] | _ => [cur] end
  | String c s' =>
      if (code c =? 10)%N then
        (cur +:+ String lf EmptyString) :: lines_from EmptyString s'
      else if (code c =? 13)%N then
        match s' with
        | String c' s'' =>
            if (code c' =? 10)%N
            then (cur +:+ String lf EmptyString) :: lines_from EmptyString s''
            else (cur +:+ String lf EmptyString) :: lines_from EmptyString s'
        | EmptyString =>
            (cur +:+ String lf EmptyString) :: lines_from EmptyString s'
        end
      else lines_from (cur +:+ String c EmptyString) s'
  end.

Definition text_lines (content : string) : list string :=
  lines_from EmptyString content.

Definition is_empty (s : string) : bool :=
  match s with EmptyString => true | _ => false end.

(** [item.get(key) == text] for a [str]. *)
Definition eq_str (o : option pyobj) (text : string) : bool :=
  match o with
  | Some (PyStr s) => String.eqb s text
  | _ => false
  end.

(** [item.get(key) == z] for an [int]: a [bool] is the int 0 or 1. *)
Definition eq_int (env : Env) (o : option pyobj) (z : Z) : bool :=
  match o with
  | Some (PyInt n) => n =? z
  | Some (PyBool b) => (if b then 1 else 0) =? z
  | Some (PyFloat bits) => float_eq_int env bits z
  | _ => false
  end.

(** [isinstance(raw_id, int) and raw_id > 0], with the id as a number;
    [True] is an [int] and counts as 1. *)
Definition positive_int (o : option pyobj) : option Z :=
  match o with
  | Some (PyInt n) => if 0 <? n then Some n else None
  | Some (PyBool true) => Some 1
  | _ => None
  end.

(** A decoded record, [dict[str, Any]]. *)
Definition Record_ : Type := list (string * pyobj).

(** The body of [_iter_chat_records_sync] over the lines of the file. *)
Fixpoint iter_lines (env : Env) (guild_id : option Z) (fallback_id : Z)
    (raws : list string) : list (Z * Record_) :=
  match raws with
  | [] => []
  | raw :: rest =>
      let line := strip raw in
      if is_empty line then iter_lines env guild_id fallback_id rest
      else
        match json_loads (runtime env) line with
        | Some (PyDict item) =>
            if negb (eq_str (dict_get "type" item) "chat") then
              iter_lines env guild_id fallback_id rest
            else
              let '(record_id, fallback_id) :=
                match positive_int (dict_get "id" item) with
                | Some raw_id =>
                    (raw_id,
                     if fallback_id <? raw_id then raw_id else fallback_id)
                | None => (fallback_id + 1, fallback_id + 1)
                end in
              if match guild_id with
                 | Some g => negb (eq_int env (dict_get "guild_id" item) g)
                 | None => false
                 end
              then iter_lines env guild_id fallback_id rest
              else (record_id, item) :: iter_lines env guild_id fallback_id rest
        | _ => iter_lines env guild_id fallback_id rest
        end
  end.

Definition _iter_chat_records_sync (self : t) (env : Env)
    (guild_id : option Z) : list (Z * Record_) :=
  match log_file self with
  | None => []
  | Some content => iter_lines env guild_id 0 (text_lines content)
  end.

Definition _initialize_sync (self : t) (env : Env) : t :=
  match log_file self with
  | None => {| log_file := Some EmptyString; _next_id := 1 |}
  | Some _ =>
      let max_id :=
        foldl (fun max_id entry =>
                 if max_id <? fst entry then fst entry else max_id)
          0 (_iter_chat_records_sync self env None) in
      {| log_file := log_file self; _next_id := max_id + 1 |}
  end.

Definition initialize (self : t) (env : Env) : t := _initialize_sync self env.
















(** The record belongs to the guild asked for. *)
Definition in_guild (env : Env) (guild_id : option Z) (entry : Z * Record_)
    : Prop :=
  match guild_id with
  | Some g => eq_int env (dict_get "guild_id" (snd entry)) g = true
  | None => True
  end.



End ChatReplayLogger.

(** ** Scenario data on the tick clock, for running the model *)

Module Scenario.

Definition cfg : @Settings tick_clock :=
  {| dual_mention_hook_enabled := true;
     teto_bot_id := 111;
     miku_bot_id := 222;
     teto_wait_miku_timeout_seconds := 5 : @float tick_clock;
     teto_fear_message_count := 3 |}.

Definition teto : User := {| user_id := 111; user_bot := true |}.
Definition miku : User := {| user_id := 222; user_bot := true |}.
Definition alice : User := {| user_id := 5; user_bot := false |}.

(** Teto's hook, waiting in channel 7 since tick 0 for trigger 99. *)
Definition waiting (active : gset Z) : @StaticHook.t tick_clock :=
  {| StaticHook.bot_user := Some teto;
     StaticHook.settings := cfg;
     StaticHook.pending_by_channel :=
       {[ 7 := {| StaticHook.created_at := 0 : @float tick_clock;
                  StaticHook.trigger_message_id := 99 |} ]};
     StaticHook.active_channels := active;
     StaticHook._tasks := [] |}.

(** Miku's static-script hook, with an empty table. *)
Definition miku_static (active : gset Z) : @StaticHook.t tick_clock :=
  {| StaticHook.bot_user := Some miku;
     StaticHook.settings := cfg;
     StaticHook.pending_by_channel := ∅;
     StaticHook.active_channels := active;
     StaticHook._tasks := [] |}.

(** Miku speaks in channel 7. *)
Definition partner_message : Message :=
  {| message_id := 100; channel_id := 7; author := miku; mentions := [];
     content := "Hey"; clean_content := "Hey" |}.

(** A user addresses both bots in channel 7. *)
Definition joint_message : Message :=
  {| message_id := 101; channel_id := 7; author := alice;
     mentions := [teto; miku];
     content := "hello both"; clean_content := "hello both" |}.

(** Miku's hook with a generator callback that raises. *)
Definition failing (exc : Py.exn) (active : gset Z)
    : @GeneratedHook.t tick_clock :=
  {| GeneratedHook.bot_user := Some miku;
     GeneratedHook.settings := cfg;
     GeneratedHook.build_miku_tease_lines := Some (fun _ _ => Py.Raises exc);
     GeneratedHook.active_channels := active;
     GeneratedHook._tasks := [] |}.

(** Miku's hook with a generator callback that returns the given lines. *)
Definition answering (lines : list string) : @GeneratedHook.t tick_clock :=
  {| GeneratedHook.bot_user := Some miku;
     GeneratedHook.settings := cfg;
     GeneratedHook.build_miku_tease_lines :=
       Some (fun _ _ => Py.Returns lines);
     GeneratedHook.active_channels := ∅;
     GeneratedHook._tasks := [] |}.

(** A store of two turns per channel, opened on a new database, and the
    same store after three messages in channel 1. *)
Definition store : ShortTermMemoryStore.t :=
  ShortTermMemoryStore.initialize (ShortTermMemoryStore.init 1) ShortTermMemoryStore.empty_database.

Definition then_append (r : ShortTermMemoryStore.result ShortTermMemoryStore.t) (now c : Z)
    (ro co : string) : ShortTermMemoryStore.result ShortTermMemoryStore.t :=
  match r with
  | ShortTermMemoryStore.Ok s => ShortTermMemoryStore.append_message s now c ro co
  | ShortTermMemoryStore.Err e => ShortTermMemoryStore.Err e
  end.

Definition talked : ShortTermMemoryStore.result ShortTermMemoryStore.t :=
  then_append
    (then_append (ShortTermMemoryStore.append_message store 10 1 "user" "a")
       20 1 "assistant" "b")
    30 1 "user" "c".




(** A generator whose normaliser leaves the reply as it is. *)
Definition generator (reply : string) : @MikuFearLineGenerator.t tick_clock :=
  {| MikuFearLineGenerator.client_generate := fun _ => Py.Returns reply;
     MikuFearLineGenerator.settings := cfg;
     MikuFearLineGenerator.normalize_model_reply := fun s => s |}.

(** A runtime whose decoder rejects every document. *)
Definition no_json : Py.Runtime :=
  {| Py.json_loads := fun _ => None; Py.repr := fun _ => EmptyString |}.

End Scenario.

(** * Properties *)

Section ExpandLines.

Implicit Types (base ext : list string) (target : Z).

Lemma slice_to_nonneg {A} (l : list A) t :
  0 <= t -> Py.slice_to l t = take (Z.to_nat t) l.
Proof. intros H. unfold Py.slice_to. destruct (Z.leb_spec 0 t); [done | lia]. Qed.

Lemma cycle_S k base : cycle (S k) base = base ++ cycle k base.
Proof. reflexivity. Qed.

Lemma cycle_snoc k base : cycle k base ++ base = cycle (S k) base.
Proof.
  induction k as [|k IH]; simpl.
  - unfold cycle. simpl. by rewrite app_nil_r.
  - rewrite !cycle_S in *. by rewrite <- app_assoc, IH.
Qed.

Lemma length_cycle k base : length (cycle k base) = (k * length base)%nat.
Proof.
  induction k as [|k IH]; [done|].
  rewrite cycle_S, length_app, IH. lia.
Qed.

(** Reading a cycled list is reading the base list modulo its length. *)
Lemma cycle_lookup k base (i : nat) :
  (i < k * length base)%nat ->
  cycle k base !! i = base !! (i mod length base)%nat.
Proof.
  revert i. induction k as [|k IH]; intros i Hi; [lia|].
  rewrite cycle_S.
  destruct (decide (i < length base)%nat) as [Hlt|Hge].
  - rewrite lookup_app_l by done. by rewrite Nat.mod_small.
  - rewrite lookup_app_r by lia. rewrite IH by lia.
    f_equal.
    replace i with ((i - length base) + 1 * length base)%nat at 2 by lia.
    rewrite Nat.Div0.mod_add. done.
Qed.

(** The loop body makes progress exactly when the base list is non-empty. *)
Lemma extend_grows base ext :
  base <> [] -> (length ext < length (ext ++ base))%nat.
Proof. intros H. rewrite length_app. destruct base; [done | simpl; lia]. Qed.

(** With a non-empty base and fuel for the missing lines, the loop ends on
    some number of whole copies that reaches the target. *)
Lemma extend_loop_cycle fuel base k target :
  base <> [] ->
  (Z.to_nat target <= fuel + length (cycle k base))%nat ->
  exists j, extend_loop fuel base (cycle k base) target = Some (cycle j base)
    /\ (k <= j)%nat /\ target <= Py.len (cycle j base)
    /\ (j = k \/ Py.len (cycle (j - 1) base) < target).
Proof.
  intros Hne. revert k. induction fuel as [|fuel IH]; intros k Hf; simpl.
  - destruct (Z.ltb_spec (Py.len (cycle k base)) target) as [Hlt|Hge].
    + unfold Py.len in Hlt. lia.
    + exists k. repeat split; [lia | done | by left].
  - destruct (Z.ltb_spec (Py.len (cycle k base)) target) as [Hlt|Hge].
    + rewrite cycle_snoc.
      destruct (IH (S k)) as (j & Hj & Hkj & Hlen & Hmin).
      { pose proof (extend_grows base (cycle k base) Hne) as Hg.
        rewrite cycle_snoc in Hg. lia. }
      exists j. repeat split; [done | lia | done |].
      right. destruct Hmin as [-> |Hmin]; [|done].
      by replace (S k - 1)%nat with k by lia.
    + exists k. repeat split; [lia | done | by left].
Qed.

(** An empty base list never reaches a positive target: the loop spends any
    amount of fuel. *)
Lemma extend_loop_empty fuel target :
  0 < target -> extend_loop fuel [] [] target = None.
Proof.
  intros Ht. induction fuel as [|fuel IH]; simpl.
  - destruct (Z.ltb_spec (Py.len (@nil string)) target) as [|H]; [done|].
    unfold Py.len in H. simpl in H. lia.
  - destruct (Z.ltb_spec (Py.len (@nil string)) target) as [|H]; [done|].
    unfold Py.len in H. simpl in H. lia.
Qed.

Lemma expand_lines_short base target :
  target <= Py.len base ->
  forall fuel, _expand_lines fuel base target = Some (Py.slice_to base target).
Proof.
  intros Hle fuel. unfold _expand_lines.
  destruct (Z.leb_spec target (Py.len base)); [done | lia].
Qed.

Lemma expand_lines_long fuel base target :
  base <> [] -> Py.len base < target -> (Z.to_nat target <= fuel)%nat ->
  exists j, _expand_lines fuel base target
            = Some (take (Z.to_nat target) (cycle j base))
    /\ target <= Py.len (cycle j base).
Proof.
  intros Hne Hlt Hfuel. unfold _expand_lines.
  destruct (Z.leb_spec target (Py.len base)); [lia|].
  destruct (extend_loop_cycle fuel base 1 target Hne) as (j & Hj & _ & Hlen & _).
  { lia. }
  assert (Hone : cycle 1 base = base) by (unfold cycle; simpl; apply app_nil_r).
  rewrite Hone in Hj. rewrite Hj. exists j. split; [|done].
  rewrite slice_to_nonneg by (unfold Py.len in *; lia). done.
Qed.


Lemma expand_lines_returns fuel base target :
  base <> [] -> (Z.to_nat target <= fuel)%nat ->
  exists r, _expand_lines fuel base target = Some r.
Proof.
  intros Hne Hfuel.
  destruct (Z.le_gt_cases target (Py.len base)) as [Hle|Hgt].
  - eexists. by apply expand_lines_short.
  - destruct (expand_lines_long fuel base target Hne Hgt Hfuel) as (j & Hj & _).
    eauto.
Qed.

End ExpandLines.

(** C1, as the claim states it, fails: an empty base list with a positive
    target keeps the loop running on any amount of fuel, and a negative
    target slices from the end. *)
Lemma C1_expand_lines_counterexample :
  ~ (forall (lines : list string) (target : Z),
       exists fuel r, _expand_lines fuel lines target = Some r
                      /\ Py.len r = target)
  /\ _expand_lines 0 ["a"; "b"]%string (-1) = Some ["a"%string].
Proof.
  split; [|reflexivity].
  intros Hall. destruct (Hall [] 1) as (fuel & r & Hr & _).
  unfold _expand_lines in Hr. simpl in Hr.
  rewrite extend_loop_empty in Hr by lia. discriminate.
Qed.

(** C1 (amended): for a target count that is not negative, and a base list
    that is non-empty unless the target is 0, [_expand_lines] returns
    exactly [target] lines once the fuel covers the target; they are the
    first [target] lines when the base list is long enough and otherwise
    whole copies of the base list laid end to end and cut at [target]; line
    [i] of the result is line [i mod len] of the base list, so the order is
    kept; and expanding the result again with the same target returns it
    unchanged. *)
Theorem C1_expand_lines_spec (lines : list string) (target : Z) (fuel : nat) :
  0 <= target ->
  lines <> [] \/ target = 0 ->
  (Z.to_nat target <= fuel)%nat ->
  exists r,
    _expand_lines fuel lines target = Some r
    /\ Py.len r = target
    /\ (target <= Py.len lines -> r = take (Z.to_nat target) lines)
    /\ (Py.len lines < target ->
        exists k, r = take (Z.to_nat target) (cycle k lines))
    /\ (forall i : nat, (i < Z.to_nat target)%nat ->
        r !! i = lines !! (i mod length lines)%nat)
    /\ _expand_lines fuel r target = Some r.
Proof.
  intros Hpos Hne Hfuel.
  destruct (Z.le_gt_cases target (Py.len lines)) as [Hle|Hgt].
  - exists (take (Z.to_nat target) lines).
    assert (Hlen : Py.len (take (Z.to_nat target) lines) = target).
    { unfold Py.len in *. rewrite length_take. lia. }
    split; [|split; [done|split; [done|split; [lia|split]]]].
    + rewrite expand_lines_short by done. by rewrite slice_to_nonneg.
    + intros i Hi. rewrite lookup_take_lt by done.
      rewrite Nat.mod_small; [done | unfold Py.len in Hle; lia].
    + rewrite expand_lines_short by lia. rewrite slice_to_nonneg by done.
      by rewrite take_take, Nat.min_id.
  - destruct Hne as [Hne| ->]; [|unfold Py.len in Hgt; lia].
    destruct (expand_lines_long fuel lines target Hne Hgt Hfuel)
      as (j & Hj & Hlen).
    exists (take (Z.to_nat target) (cycle j lines)).
    assert (Hlen' : Py.len (take (Z.to_nat target) (cycle j lines)) = target).
    { unfold Py.len in *. rewrite length_take. lia. }
    split; [done|split; [done|split; [lia|split; [by exists j|split]]]].
    + intros i Hi. rewrite lookup_take_lt by done.
      apply cycle_lookup. unfold Py.len in Hlen.
      rewrite length_cycle in Hlen. lia.
    + rewrite expand_lines_short by lia. rewrite slice_to_nonneg by done.
      by rewrite take_take, Nat.min_id.
Qed.

Lemma C1_expand_lines_spec_witness :
  exists r,
    _expand_lines 10 ["a"; "b"; "c"]%string 7 = Some r
    /\ Py.len r = 7
    /\ (7 <= Py.len ["a"; "b"; "c"]%string -> r = take (Z.to_nat 7) ["a"; "b"; "c"]%string)
    /\ (Py.len ["a"; "b"; "c"]%string < 7 ->
        exists k, r = take (Z.to_nat 7) (cycle k ["a"; "b"; "c"]%string))
    /\ (forall i : nat, (i < Z.to_nat 7)%nat ->
        r !! i = ["a"; "b"; "c"]%string !! (i mod length ["a"; "b"; "c"]%string)%nat)
    /\ _expand_lines 10 r 7 = Some r.
Proof.
  apply (C1_expand_lines_spec ["a"; "b"; "c"]%string 7 10);
    [lia | by left | vm_compute; lia].
Defined.

(** C9: on a non-empty base list the repetition loop adds at least one line
    per round, and [_expand_lines] returns a result for every target count
    once the fuel covers the target. *)
Theorem C9_expand_lines_terminates (lines : list string) (target : Z) :
  lines <> [] ->
  (forall extended : list string,
     (length extended < length (extended ++ lines))%nat)
  /\ forall fuel, (Z.to_nat target <= fuel)%nat ->
       exists r, _expand_lines fuel lines target = Some r.
Proof.
  intros Hne. split; [intros ext; by apply extend_grows|].
  intros fuel Hfuel. by apply expand_lines_returns.
Qed.

Lemma C9_expand_lines_terminates_witness :
  (forall extended : list string,
     (length extended < length (extended ++ ["x"; "y"]%string))%nat)
  /\ forall fuel, (Z.to_nat 5 <= fuel)%nat ->
       exists r, _expand_lines fuel ["x"; "y"]%string 5 = Some r.
Proof.
  apply (C9_expand_lines_terminates ["x"; "y"]%string 5). discriminate.
Defined.

(** ** The pending-coordination table *)

Section PendingTable.
Context `{FloatOps}.
Import StaticHook.

Lemma foldl_delete_lookup {V} (keys : list Z) (m : gmap Z V) (c : Z) :
  foldl (fun pending channel => delete channel pending) m keys !! c
  = if decide (c ∈ keys) then None else m !! c.
Proof.
  revert m. induction keys as [|k keys IH]; intros m.
  - by rewrite decide_False by set_solver.
  - cbn [foldl]. rewrite IH. destruct (decide (c = k)) as [->|Hne].
    + rewrite lookup_delete_eq.
      rewrite (decide_True (P := k ∈ k :: keys)) by set_solver.
      by case_decide.
    + rewrite lookup_delete_ne by done.
      destruct (decide (c ∈ keys)) as [Hin|Hin].
      * by rewrite decide_True by set_solver.
      * by rewrite decide_False by set_solver.
Qed.

(** The sweep keeps exactly the entries that are not stale. *)
Lemma expire_pending_lookup (self : t) (now : float) (c : Z) :
  pending_by_channel (_expire_pending self now) !! c
  = match pending_by_channel self !! c with
    | Some p =>
        if is_stale now (teto_wait_miku_timeout_seconds (settings self)) p
        then None else Some p
    | None => None
    end.
Proof.
  unfold _expire_pending. simpl. rewrite foldl_delete_lookup.
  case_decide as Hin.
  - apply list_elem_of_fmap in Hin. destruct Hin as ([c' p] & Heq & Hin).
    simpl in Heq. subst c'.
    apply list_elem_of_filter in Hin. destruct Hin as [Hst Hin].
    apply elem_of_map_to_list in Hin. simpl in Hst. by rewrite Hin, Hst.
  - destruct (pending_by_channel self !! c) as [p|] eqn:Hc; [|done].
    destruct (is_stale now _ p) eqn:Hst; [|done].
    exfalso. apply Hin. apply list_elem_of_fmap. exists (c, p). split; [done|].
    apply list_elem_of_filter. split; [done|]. by apply elem_of_map_to_list.
Qed.

Lemma expire_pending_fields (self : t) (now : float) :
  bot_user (_expire_pending self now) = bot_user self
  /\ settings (_expire_pending self now) = settings self
  /\ active_channels (_expire_pending self now) = active_channels self
  /\ _tasks (_expire_pending self now) = _tasks self.
Proof. done. Qed.

(** C3: take an entry of channel [c] recorded at [t0 = created_at p] and
    sweep at [now] with the configured timeout.  If [now - t0 > timeout]
    (the test the sweep itself makes), the take that follows returns
    absent.  Otherwise it returns the entry, and a second take on the same
    channel returns absent. *)
Theorem C3_take_after_sweep (self : t) (now : float) (c : Z)
    (p : PendingDualMention) :
  pending_by_channel self !! c = Some p ->
  let timeout := teto_wait_miku_timeout_seconds (settings self) in
  let swept := _expire_pending self now in
  (fgt (fsub now (created_at p)) timeout = true ->
   fst (pop_pending swept c) = None)
  /\ (fgt (fsub now (created_at p)) timeout = false ->
      fst (pop_pending swept c) = Some p
      /\ fst (pop_pending (snd (pop_pending swept c)) c) = None).
Proof.
  intros Hc timeout swept. unfold pop_pending. cbn [fst snd].
  subst swept. rewrite expire_pending_lookup, Hc. unfold is_stale.
  fold timeout. split; intros ->; [done|]. split; [done|].
  cbn [pending_by_channel set_pending]. apply lookup_delete_eq.
Qed.

End PendingTable.

Lemma C3_take_after_sweep_witness :
  let self := Scenario.waiting ∅ in
  let p := {| StaticHook.created_at := 0 : @float tick_clock;
              StaticHook.trigger_message_id := 99 |} in
  (fst (StaticHook.pop_pending (StaticHook._expire_pending self 4) 7) = Some p
   /\ fst (StaticHook.pop_pending
             (snd (StaticHook.pop_pending
                     (StaticHook._expire_pending self 4) 7)) 7) = None)
  /\ fst (StaticHook.pop_pending (StaticHook._expire_pending self 6) 7) = None.
Proof.
  intros self p.
  destruct (C3_take_after_sweep self 4 7 p eq_refl) as [_ Hfresh].
  destruct (C3_take_after_sweep self 6 7 p eq_refl) as [Hstale _].
  split; [apply Hfresh | apply Hstale]; reflexivity.
Defined.

(** ** The trigger predicate *)

Section Trigger.
Context `{FloatOps}.

Lemma dual_mention_trigger_iff (settings : Settings) (message : Message) :
  is_dual_mention_trigger_on settings message = true
  <-> (exists u, u ∈ mentions message /\ user_id u = teto_bot_id settings)
      /\ (exists u, u ∈ mentions message /\ user_id u = miku_bot_id settings).
Proof.
  unfold is_dual_mention_trigger_on.
  rewrite andb_true_iff, !bool_decide_eq_true, !elem_of_list_to_set.
  rewrite !list_elem_of_fmap. naive_solver.
Qed.

(** C4: in both hook classes [_is_dual_mention_trigger] is a function of
    the message's mentions and the two configured ids alone, with a boolean
    as its only result, and it answers true exactly when a mentioned user
    carries the Teto id and a mentioned user carries the Miku id. *)
Theorem C4_dual_mention_trigger (s : StaticHook.t) (g : GeneratedHook.t)
    (message : Message) :
  (StaticHook._is_dual_mention_trigger s message = true
   <-> (exists u, u ∈ mentions message
                  /\ user_id u = teto_bot_id (StaticHook.settings s))
       /\ (exists u, u ∈ mentions message
                     /\ user_id u = miku_bot_id (StaticHook.settings s)))
  /\ (GeneratedHook._is_dual_mention_trigger g message = true
      <-> (exists u, u ∈ mentions message
                     /\ user_id u = teto_bot_id (GeneratedHook.settings g))
          /\ (exists u, u ∈ mentions message
                        /\ user_id u = miku_bot_id (GeneratedHook.settings g))).
Proof. split; apply dual_mention_trigger_iff. Qed.

End Trigger.

(** ** The busy guard and the confirmation path *)

Section HandleMessage.
Context `{FloatOps}.

(** C5 (amended): a message on a channel of the Active-Channel Set makes
    [handle_message] return false without recording a pending entry or
    launching a sequence.  The task registry and the Active-Channel Set are
    unchanged.  In the static-script hook the pending table is the table
    before the message after the expiry sweep, which runs ahead of the busy
    guard, so every entry it holds was there before; in the hook that asks
    for a generated script nothing changes at all. *)
Theorem C5_busy_guard (s : StaticHook.t) (now_sweep now_record : float)
    (fuel : nat) (g : GeneratedHook.t) (message : Message) :
  (channel_id message ∈ StaticHook.active_channels s ->
   exists s',
     StaticHook.handle_message s now_sweep now_record fuel message
     = Some (false, s')
     /\ (s' = s \/ s' = StaticHook._expire_pending s now_sweep)
     /\ StaticHook._tasks s' = StaticHook._tasks s
     /\ StaticHook.active_channels s' = StaticHook.active_channels s
     /\ forall c p, StaticHook.pending_by_channel s' !! c = Some p ->
                    StaticHook.pending_by_channel s !! c = Some p)
  /\ (channel_id message ∈ GeneratedHook.active_channels g ->
      GeneratedHook.handle_message g message = (false, g)).
Proof.
  split; intros Hbusy.
  - unfold StaticHook.handle_message.
    destruct (dual_mention_hook_enabled (StaticHook.settings s)); cbn [negb];
      [|exists s; by auto].
    destruct (StaticHook.bot_user s) as [me|]; [|exists s; by auto].
    cbn [StaticHook._expire_pending StaticHook.active_channels
         StaticHook.set_pending].
    rewrite bool_decide_eq_true_2 by done.
    eexists. split; [done|]. split; [by right|]. split; [done|]. split; [done|].
    intros c p. fold (StaticHook._expire_pending s now_sweep).
    rewrite expire_pending_lookup.
    destruct (StaticHook.pending_by_channel s !! c) as [q|]; [|done].
    by destruct (StaticHook.is_stale _ _ q).
  - unfold GeneratedHook.handle_message.
    destruct (dual_mention_hook_enabled (GeneratedHook.settings g)); [|done].
    destruct (GeneratedHook.bot_user g) as [me|]; [|done]. cbn [negb].
    destruct (negb _); [done|].
    by rewrite bool_decide_eq_true_2.
Qed.

Lemma build_teto_fear_lines_returns (s : StaticHook.t) (fuel : nat) :
  (Z.to_nat (Py.max 1 (teto_fear_message_count (StaticHook.settings s)))
   <= fuel)%nat ->
  exists lines, StaticHook._build_teto_fear_lines s fuel = Some lines.
Proof.
  intros Hfuel. unfold StaticHook._build_teto_fear_lines.
  apply expand_lines_returns; [discriminate | done].
Qed.

(** C10: Teto's hook is idle on the channel and holds an entry for it that
    the sweep of this pass keeps; the message is written by a bot whose id
    is Miku's.  Then, with fuel for the configured line count,
    [handle_message] consumes the entry, registers the task that runs
    Teto's lines for the recorded trigger, and returns false. *)
Theorem C10_confirmation_returns_false (s : StaticHook.t)
    (now_sweep now_record : float) (fuel : nat) (message : Message)
    (me : User) (p : StaticHook.PendingDualMention) :
  dual_mention_hook_enabled (StaticHook.settings s) = true ->
  StaticHook.bot_user s = Some me ->
  user_id me = teto_bot_id (StaticHook.settings s) ->
  channel_id message ∉ StaticHook.active_channels s ->
  user_bot (author message) = true ->
  user_id (author message) = miku_bot_id (StaticHook.settings s) ->
  StaticHook.pending_by_channel s !! channel_id message = Some p ->
  StaticHook.is_stale now_sweep
    (teto_wait_miku_timeout_seconds (StaticHook.settings s)) p = false ->
  (Z.to_nat (Py.max 1 (teto_fear_message_count (StaticHook.settings s)))
   <= fuel)%nat ->
  exists lines s',
    StaticHook.handle_message s now_sweep now_record fuel message
    = Some (false, s')
    /\ StaticHook._build_teto_fear_lines s fuel = Some lines
    /\ StaticHook._tasks s'
       = StaticHook._tasks s
         ++ [{| StaticHook.task_channel_id := channel_id message;
                StaticHook.task_trigger_message_id :=
                  StaticHook.trigger_message_id p;
                StaticHook.task_lines := lines |}]
    /\ StaticHook.pending_by_channel s' !! channel_id message = None.
Proof.
  intros Hen Hme Hid Hidle Hbot Hmiku Hp Hfresh Hfuel.
  destruct (build_teto_fear_lines_returns s fuel Hfuel) as [lines Hlines].
  exists lines. unfold StaticHook.handle_message.
  rewrite Hen, Hme. cbn [negb].
  rewrite bool_decide_eq_false_2 by done.
  replace (StaticHook.settings (StaticHook._expire_pending s now_sweep))
    with (StaticHook.settings s) by done.
  rewrite Hid, Z.eqb_refl.
  unfold StaticHook._handle_as_teto. rewrite Hbot.
  unfold StaticHook._handle_teto_bot_message.
  replace (StaticHook.settings (StaticHook._expire_pending s now_sweep))
    with (StaticHook.settings s) by done.
  rewrite Hmiku, Z.eqb_refl. cbn [negb].
  unfold StaticHook.pop_pending.
  rewrite expire_pending_lookup, Hp, Hfresh.
  change (StaticHook._build_teto_fear_lines _ fuel)
    with (StaticHook._build_teto_fear_lines s fuel).
  rewrite Hlines. eexists. split; [done|]. split; [done|]. split; [done|].
  cbn. apply lookup_delete_eq.
Qed.

End HandleMessage.

Lemma C10_confirmation_returns_false_witness :
  exists lines s',
    StaticHook.handle_message (Scenario.waiting ∅) (4 : @float tick_clock)
      (4 : @float tick_clock) 3 Scenario.partner_message = Some (false, s')
    /\ StaticHook._build_teto_fear_lines (Scenario.waiting ∅) 3 = Some lines
    /\ StaticHook._tasks s'
       = StaticHook._tasks (Scenario.waiting ∅)
         ++ [{| StaticHook.task_channel_id := 7;
                StaticHook.task_trigger_message_id := 99;
                StaticHook.task_lines := lines |}]
    /\ StaticHook.pending_by_channel s' !! 7 = None.
Proof.
  apply (C10_confirmation_returns_false (Scenario.waiting ∅) 4 4 3
           Scenario.partner_message Scenario.teto
           {| StaticHook.created_at := 0 : @float tick_clock;
              StaticHook.trigger_message_id := 99 |});
    try reflexivity.
  vm_compute. set_solver.
Defined.

(** C5, as the claim states it, fails on the static-script hook: with
    channel 7 busy and its entry of tick 0 stale at tick 10, the message is
    refused and the pending table has lost the entry. *)
Lemma C5_busy_guard_counterexample :
  channel_id Scenario.partner_message
    ∈ StaticHook.active_channels (Scenario.waiting {[7]})
  /\ exists s',
      StaticHook.handle_message (Scenario.waiting {[7]}) 10 10 0
        Scenario.partner_message = Some (false, s')
      /\ StaticHook.pending_by_channel s'
         <> StaticHook.pending_by_channel (Scenario.waiting {[7]}).
Proof.
  split; [vm_compute; set_solver|].
  eexists. split; [reflexivity|].
  intros Heq. apply (f_equal (fun m => m !! 7)) in Heq.
  vm_compute in Heq. discriminate.
Qed.

Lemma C5_busy_guard_witness :
  (exists s',
     StaticHook.handle_message (Scenario.waiting {[7]}) (10 : @float tick_clock)
       (10 : @float tick_clock) 0 Scenario.joint_message = Some (false, s')
     /\ (s' = Scenario.waiting {[7]}
         \/ s' = StaticHook._expire_pending (Scenario.waiting {[7]})
                   (10 : @float tick_clock))
     /\ StaticHook._tasks s' = StaticHook._tasks (Scenario.waiting {[7]})
     /\ StaticHook.active_channels s'
        = StaticHook.active_channels (Scenario.waiting {[7]})
     /\ forall c p, StaticHook.pending_by_channel s' !! c = Some p ->
          StaticHook.pending_by_channel (Scenario.waiting {[7]}) !! c = Some p)
  /\ GeneratedHook.handle_message
       (Scenario.failing Py.CancelledError {[7]}) Scenario.joint_message
     = (false, Scenario.failing Py.CancelledError {[7]}).
Proof.
  destruct (C5_busy_guard (Scenario.waiting {[7]}) 10 10 0
              (Scenario.failing Py.CancelledError {[7]})
              Scenario.joint_message) as [Hstatic Hgenerated].
  split; [apply Hstatic | apply Hgenerated]; vm_compute; set_solver.
Defined.

(** ** The sequenced output runner *)

Section Runner.




Context `{FloatOps}.



(** C8: when the generator callback raises an [Exception],
    [_build_miku_tease_lines] prints the failure and returns no lines, and
    [_run_miku_sequence] returns normally with the hook unchanged and
    nothing shown or sent on the channel. *)
Theorem C8_generation_failure_skips (g : GeneratedHook.t) (gw : gateway)
    (fuel : nat) (message : Message)
    (callback : Message -> Z -> Py.outcome (list string)) (exc : Py.exn) :
  GeneratedHook.build_miku_tease_lines g = Some callback ->
  callback message
    (Py.max 1 (teto_fear_message_count (GeneratedHook.settings g)))
  = Py.Raises exc ->
  Py.is_Exception exc = true ->
  let printed :=
    [Printed ("[teto-miku-hook] tease generation failed: " +:+ exn_text exc)] in
  GeneratedHook._build_miku_tease_lines g fuel message
  = (printed, Py.Returns [])
  /\ GeneratedHook._run_miku_sequence g gw fuel message
     = (g, printed, Py.Returns tt).
Proof.
  intros Hcb Hraise Hexc printed.
  assert (Hbuild : GeneratedHook._build_miku_tease_lines g fuel message
                   = (printed, Py.Returns [])).
  { unfold GeneratedHook._build_miku_tease_lines.
    by rewrite Hcb, Hraise, Hexc. }
  split; [done|].
  unfold GeneratedHook._run_miku_sequence. by rewrite Hbuild.
Qed.

End Runner.

Lemma C8_generation_failure_skips_witness :
  let g := Scenario.failing MikuFearLineGenerator.ignored_material ∅ in
  let printed :=
    [Printed ("[teto-miku-hook] tease generation failed: "
              +:+ exn_text MikuFearLineGenerator.ignored_material)] in
  GeneratedHook._build_miku_tease_lines g 0 Scenario.joint_message
  = (printed, Py.Returns [])
  /\ GeneratedHook._run_miku_sequence g (fun _ => Resumed) 0
       Scenario.joint_message
     = (g, printed, Py.Returns tt).
Proof.
  intros g printed.
  apply (C8_generation_failure_skips g (fun _ => Resumed) 0
           Scenario.joint_message
           (fun _ _ => Py.Raises MikuFearLineGenerator.ignored_material)
           MikuFearLineGenerator.ignored_material);
    reflexivity.
Defined.

(** ** Strings: substrings, lower case, joined lines *)

Section Strings.
Import Py.

Lemma prefix_iff (n h : string) :
  String.prefix n h = true <-> exists b, h = n +:+ b.
Proof.
  revert h. induction n as [|c n IH]; intros h; simpl.
  - destruct h; split; eauto.
  - destruct h as [|d h]; simpl.
    + split; [done | intros [b Hb]; done].
    + destruct (ascii_dec c d) as [->|Hne].
      * rewrite IH. split; intros [b Hb]; exists b.
        -- by rewrite Hb.
        -- by injection Hb.
      * split; [done | intros [b Hb]; by injection Hb].
Qed.

Lemma contains_iff (n h : string) :
  contains n h = true <-> exists a b, h = a +:+ n +:+ b.
Proof.
  induction h as [|c h IH]; cbn [contains].
  - rewrite orb_false_r, prefix_iff. split.
    + intros [b Hb]. by exists EmptyString, b.
    + intros (a & b & Hab). destruct a; [by exists b|done].
  - rewrite orb_true_iff, IH, prefix_iff. split.
    + intros [[b Hb]|(a & b & Hab)].
      * by exists EmptyString, b.
      * exists (String c a), b. simpl. by rewrite Hab.
    + intros (a & b & Hab). destruct a as [|c' a]; simpl in Hab.
      * left. by exists b.
      * right. exists a, b. by injection Hab.
Qed.


Lemma contains_self_prefix (t rest : string) : contains t (t +:+ rest) = true.
Proof. apply contains_iff. by exists EmptyString, rest. Qed.

Lemma lower_app (a b : string) : lower (a +:+ b) = lower a +:+ lower b.
Proof. induction a as [|c a IH]; simpl; [done | by rewrite IH]. Qed.

Lemma lower_char_idem (c : ascii) : lower_char (lower_char c) = lower_char c.
Proof. destruct c as [[] [] [] [] [] [] [] []]; reflexivity. Qed.

Lemma lower_idem (s : string) : lower (lower s) = lower s.
Proof.
  induction s as [|c s IH]; simpl; [done|]. by rewrite lower_char_idem, IH.
Qed.








End Strings.

(** ** Parsing the generated script *)

Section ParseLines.
Context `{FloatOps}.
Import Py MikuFearLineGenerator.

Implicit Types (self : MikuFearLineGenerator.t) (rt : Runtime).

Lemma nonempty_false (s : string) : nonempty s = false <-> s = EmptyString.
Proof. destruct s; simpl; split; done. Qed.


(** The three failures of [_parse_lines], one case each. *)
Lemma parse_lines_cases self rt fuel raw line_count id words :
  let normalized := strip (normalize_model_reply self raw) in
  let lines := _extract_lines_from_text rt normalized in
  let lines' := with_mention (mention_token id) lines in
  _parse_lines self rt fuel raw line_count id words
  = if negb (nonempty normalized) then Raises empty_output
    else if bool_decide (lines = []) then Raises unparseable_output
    else if bool_decide (words <> [])
            && negb (_has_material_overlap lines' words)
    then Raises ignored_material
    else match _expand_lines fuel lines' line_count with
         | Some expanded => Returns expanded
         | None => OutOfFuel
         end.
Proof.
  intros normalized lines lines'. unfold _parse_lines.
  fold normalized. destruct (negb (nonempty normalized)); [done|].
  fold lines. subst lines'. destruct lines as [|l ls]; [done|].
  rewrite (bool_decide_eq_false_2 (l :: ls = [])) by done.
  by destruct words.
Qed.

(** A lone dash is a bullet with nothing after it, whatever the decoder. *)
Lemma lone_dash_unparseable self rt fuel line_count id words :
  normalize_model_reply self "-" = "-"%string ->
  _parse_lines self rt fuel "-" line_count id words
  = Raises unparseable_output.
Proof. intros Hid. unfold _parse_lines. rewrite Hid. reflexivity. Qed.

(** C2 (amended): [_parse_lines] fails with the empty-output error exactly
    when the normalized and stripped reply is empty, and with the
    unparseable-output error exactly when that text is not empty and no
    line survives [_extract_lines_from_text]. *)
Theorem C2_parse_failures self rt fuel raw line_count id words :
  let normalized := strip (normalize_model_reply self raw) in
  (_parse_lines self rt fuel raw line_count id words = Raises empty_output
   <-> normalized = EmptyString)
  /\ (_parse_lines self rt fuel raw line_count id words
      = Raises unparseable_output
      <-> normalized <> EmptyString
          /\ _extract_lines_from_text rt normalized = []).
Proof.
  intros normalized. rewrite parse_lines_cases. fold normalized.
  destruct (nonempty normalized) eqn:Hne; cbn [negb].
  - assert (Hn : normalized <> EmptyString).
    { intros Hn. apply nonempty_false in Hn. congruence. }
    case_bool_decide as Hl.
    + split; split; intros; destruct_and?; done.
    + destruct (_ && _); [|destruct (_expand_lines _ _ _)];
        (split; split; intros; destruct_and?; done).
  - apply nonempty_false in Hne.
    split; split; intros; destruct_and?; done.
Qed.


End ParseLines.

(** C2, as the claim states it, fails: the two errors are the other way
    round.  A reply that is a lone dash is not empty and loses its only
    line, and the error is the unparseable-output one. *)
Lemma C2_parse_failures_counterexample :
  Py.strip
    (MikuFearLineGenerator.normalize_model_reply (Scenario.generator "-") "-")
  <> EmptyString
  /\ MikuFearLineGenerator._extract_lines_from_text Scenario.no_json
       (Py.strip
          (MikuFearLineGenerator.normalize_model_reply
             (Scenario.generator "-") "-")) = []
  /\ MikuFearLineGenerator._parse_lines (Scenario.generator "-")
       Scenario.no_json 0 "-" 3 111 []
     = Py.Raises MikuFearLineGenerator.unparseable_output
  /\ MikuFearLineGenerator._parse_lines (Scenario.generator "-")
       Scenario.no_json 0 "-" 3 111 []
     <> Py.Raises MikuFearLineGenerator.empty_output
  /\ MikuFearLineGenerator._parse_lines (Scenario.generator " ")
       Scenario.no_json 0 " " 3 111 []
     = Py.Raises MikuFearLineGenerator.empty_output.
Proof. repeat split; try done; vm_compute; done. Qed.


(** * Further properties of the hooks *)

(** ** Expansion read by position *)

Section ExpandByPosition.

Lemma expand_lines_positions (fuel : nat) (base : list string) (target : Z) :
  base <> [] -> 0 <= target -> (Z.to_nat target <= fuel)%nat ->
  exists r, _expand_lines fuel base target = Some r
    /\ length r = Z.to_nat target
    /\ forall i : nat, (i < Z.to_nat target)%nat ->
         r !! i = base !! (i mod length base)%nat.
Proof.
  intros Hne Hpos Hfuel.
  destruct (Z.le_gt_cases target (Py.len base)) as [Hle|Hgt].
  - exists (take (Z.to_nat target) base). unfold Py.len in Hle.
    rewrite expand_lines_short by done. rewrite slice_to_nonneg by done.
    split; [done|]. split; [rewrite length_take; lia|].
    intros i Hi. rewrite lookup_take_lt by done.
    rewrite Nat.mod_small; [done | lia].
  - destruct (expand_lines_long fuel base target Hne Hgt Hfuel)
      as (j & Hj & Hlen).
    exists (take (Z.to_nat target) (cycle j base)). unfold Py.len in Hlen.
    split; [done|]. split; [rewrite length_take; lia|].
    intros i Hi. rewrite lookup_take_lt by done.
    apply cycle_lookup. rewrite length_cycle in Hlen. lia.
Qed.


End ExpandByPosition.

(** ** The static scripts *)

Section StaticScripts.
Context `{FloatOps}.
Import StaticHook.

Lemma format_teto_templates (id : Z) :
  map (fun template => format_id template "miku_id" id) TETO_FEAR_LINES
  = ("Oh... <@" +:+ Py.str_of_int id +:+ ">, you are here too?")
      :: tail TETO_FEAR_LINES.
Proof. unfold format_id. generalize (Py.str_of_int id). intros n. reflexivity. Qed.

Lemma format_miku_templates (id : Z) :
  map (fun template => format_id template "teto_id" id) MIKU_TEASE_LINES
  = ("Hey <@" +:+ Py.str_of_int id +:+ ">, relax. I run this chat now.")
      :: tail MIKU_TEASE_LINES.
Proof. unfold format_id. generalize (Py.str_of_int id). intros n. reflexivity. Qed.

(** X1: with fuel for the line count, both static builders return exactly
    [max(1, teto_fear_message_count)] lines.  Line [i] is template
    [i mod 7] of the builder's list, where the first template carries the
    partner's mention [<@id>] in place of its placeholder and the other six
    are used as written; so a count above 7 wraps around to the first
    template. *)
Theorem X1_static_scripts (s : t) (fuel : nat) :
  let count := Py.max 1 (teto_fear_message_count (settings s)) in
  let teto_script :=
    ("Oh... <@" +:+ Py.str_of_int (miku_bot_id (settings s))
     +:+ ">, you are here too?") :: tail TETO_FEAR_LINES in
  let miku_script :=
    ("Hey <@" +:+ Py.str_of_int (teto_bot_id (settings s))
     +:+ ">, relax. I run this chat now.") :: tail MIKU_TEASE_LINES in
  (Z.to_nat count <= fuel)%nat ->
  (exists lines, _build_teto_fear_lines s fuel = Some lines
     /\ Py.len lines = count
     /\ forall i : nat, (i < Z.to_nat count)%nat ->
          lines !! i = teto_script !! (i mod 7)%nat)
  /\ (exists lines, _build_miku_tease_lines s fuel = Some lines
        /\ Py.len lines = count
        /\ forall i : nat, (i < Z.to_nat count)%nat ->
             lines !! i = miku_script !! (i mod 7)%nat).
Proof.
  intros count teto_script miku_script Hfuel.
  assert (Hcount : 0 <= count) by (unfold count, Py.max; lia).
  split.
  - unfold _build_teto_fear_lines. rewrite format_teto_templates.
    fold teto_script count.
    destruct (expand_lines_positions fuel teto_script count)
      as (r & Hr & Hlen & Hpos); [done..|].
    exists r. split; [done|]. split; [unfold Py.len; lia | exact Hpos].
  - unfold _build_miku_tease_lines. rewrite format_miku_templates.
    fold miku_script count.
    destruct (expand_lines_positions fuel miku_script count)
      as (r & Hr & Hlen & Hpos); [done..|].
    exists r. split; [done|]. split; [unfold Py.len; lia | exact Hpos].
Qed.

End StaticScripts.

Lemma X1_static_scripts_witness :
  StaticHook._build_teto_fear_lines (Scenario.waiting ∅) 3
  = Some ["Oh... <@222>, you are here too?";
          "I heard you, Miku. You speak first...";
          "Wait, please do not look at me like that..."]%string
  /\ exists lines,
       StaticHook._build_miku_tease_lines (Scenario.waiting ∅) 3 = Some lines
       /\ Py.len lines = 3.
Proof.
  destruct (X1_static_scripts (Scenario.waiting ∅) 3) as [Hteto Hmiku];
    [vm_compute; lia|].
  split; [reflexivity|].
  destruct Hmiku as (lines & Hlines & Hlen & _). by exists lines.
Defined.

(** ** What a pass of [handle_message] can do *)

Section Passes.
Context `{FloatOps}.

(** X2: the static-script hook reports a message as handled only when the
    hook is enabled, the bot user is Teto or Miku, the channel is not
    running a sequence, the author is not a bot and the message mentions
    both bots. *)
Theorem X2_static_handled_only_on_trigger (s s' : StaticHook.t)
    (now_sweep now_record : float) (fuel : nat) (message : Message) :
  StaticHook.handle_message s now_sweep now_record fuel message
  = Some (true, s') ->
  dual_mention_hook_enabled (StaticHook.settings s) = true
  /\ (exists me, StaticHook.bot_user s = Some me
        /\ (user_id me = teto_bot_id (StaticHook.settings s)
            \/ user_id me = miku_bot_id (StaticHook.settings s)))
  /\ (channel_id message ∉ StaticHook.active_channels s)
  /\ user_bot (author message) = false
  /\ StaticHook._is_dual_mention_trigger s message = true.
Proof.
  unfold StaticHook.handle_message.
  destruct (dual_mention_hook_enabled (StaticHook.settings s)); [|done].
  destruct (StaticHook.bot_user s) as [me|]; [|done]. cbn [negb].
  case_bool_decide as Hact; [done|].
  change (StaticHook.settings (StaticHook._expire_pending s now_sweep))
    with (StaticHook.settings s).
  set (swept := StaticHook._expire_pending s now_sweep).
  assert (Htrig : StaticHook._is_dual_mention_trigger swept message
                  = StaticHook._is_dual_mention_trigger s message) by done.
  destruct (Z.eqb_spec (user_id me) (teto_bot_id (StaticHook.settings s)))
    as [Hteto|_].
  - unfold StaticHook._handle_as_teto, StaticHook._handle_teto_bot_message.
    destruct (user_bot (author message)) eqn:Hbot.
    + destruct (negb _); [done|].
      destruct (StaticHook.pop_pending swept _) as [[p|] ?]; [|done].
      by destruct (StaticHook._build_teto_fear_lines _ _).
    + rewrite Htrig.
      destruct (StaticHook._is_dual_mention_trigger s message) eqn:Ht; [|done].
      intros _. repeat split; eauto.
  - destruct (Z.eqb_spec (user_id me) (miku_bot_id (StaticHook.settings s)))
      as [Hmiku|_]; [|done].
    unfold StaticHook._handle_as_miku.
    destruct (user_bot (author message)) eqn:Hbot; [done|]. rewrite Htrig.
    destruct (StaticHook._is_dual_mention_trigger s message) eqn:Ht; [|done].
    intros _. repeat split; eauto.
Qed.

(** X3: Teto's hook, idle on the channel, sees a non-bot message that
    mentions both bots.  It returns true, launches nothing, and the table
    holds for the channel the entry of this message, stamped with the
    clock reading, in place of any earlier entry; every other channel has
    the entry the sweep left it. *)
Theorem X3_teto_records_trigger (s : StaticHook.t)
    (now_sweep now_record : float) (fuel : nat) (message : Message)
    (me : User) :
  dual_mention_hook_enabled (StaticHook.settings s) = true ->
  StaticHook.bot_user s = Some me ->
  user_id me = teto_bot_id (StaticHook.settings s) ->
  channel_id message ∉ StaticHook.active_channels s ->
  user_bot (author message) = false ->
  StaticHook._is_dual_mention_trigger s message = true ->
  exists s',
    StaticHook.handle_message s now_sweep now_record fuel message
    = Some (true, s')
    /\ StaticHook.pending_by_channel s' !! channel_id message
       = Some {| StaticHook.created_at := now_record;
                 StaticHook.trigger_message_id := message_id message |}
    /\ (forall c, c <> channel_id message ->
          StaticHook.pending_by_channel s' !! c
          = StaticHook.pending_by_channel
              (StaticHook._expire_pending s now_sweep) !! c)
    /\ StaticHook._tasks s' = StaticHook._tasks s
    /\ StaticHook.active_channels s' = StaticHook.active_channels s.
Proof.
  intros Hen Hme Hid Hidle Hbot Htrig.
  unfold StaticHook.handle_message. rewrite Hen, Hme. cbn [negb].
  rewrite bool_decide_eq_false_2 by done.
  change (StaticHook.settings (StaticHook._expire_pending s now_sweep))
    with (StaticHook.settings s).
  rewrite Hid, Z.eqb_refl. unfold StaticHook._handle_as_teto. rewrite Hbot.
  change (StaticHook._is_dual_mention_trigger
            (StaticHook._expire_pending s now_sweep) message)
    with (StaticHook._is_dual_mention_trigger s message).
  rewrite Htrig. eexists. split; [done|].
  cbn [StaticHook.pending_by_channel StaticHook.set_pending].
  split; [apply lookup_insert_eq|]. split; [|done].
  intros c Hc. by rewrite lookup_insert_ne.
Qed.

(** X4: Miku's static-script hook (its id differs from Teto's), idle on
    the channel, sees a non-bot message that mentions both bots.  With
    fuel for the line count it returns true and registers one task for the
    channel and the message, whose script is Miku's tease lines; the
    pending table is the one the sweep left. *)
Theorem X4_miku_launches_sequence (s : StaticHook.t)
    (now_sweep now_record : float) (fuel : nat) (message : Message)
    (me : User) :
  dual_mention_hook_enabled (StaticHook.settings s) = true ->
  StaticHook.bot_user s = Some me ->
  user_id me = miku_bot_id (StaticHook.settings s) ->
  user_id me <> teto_bot_id (StaticHook.settings s) ->
  channel_id message ∉ StaticHook.active_channels s ->
  user_bot (author message) = false ->
  StaticHook._is_dual_mention_trigger s message = true ->
  (Z.to_nat (Py.max 1 (teto_fear_message_count (StaticHook.settings s)))
   <= fuel)%nat ->
  exists lines,
    StaticHook._build_miku_tease_lines s fuel = Some lines
    /\ StaticHook.handle_message s now_sweep now_record fuel message
       = Some (true,
               StaticHook.add_task (StaticHook._expire_pending s now_sweep)
                 {| StaticHook.task_channel_id := channel_id message;
                    StaticHook.task_trigger_message_id := message_id message;
                    StaticHook.task_lines := lines |}).
Proof.
  intros Hen Hme Hmiku Hteto Hidle Hbot Htrig Hfuel.
  assert (Hlines : exists lines,
             StaticHook._build_miku_tease_lines s fuel = Some lines).
  { unfold StaticHook._build_miku_tease_lines.
    apply expand_lines_returns; [discriminate | done]. }
  destruct Hlines as [lines Hlines]. exists lines. split; [done|].
  unfold StaticHook.handle_message. rewrite Hen, Hme. cbn [negb].
  rewrite bool_decide_eq_false_2 by done.
  change (StaticHook.settings (StaticHook._expire_pending s now_sweep))
    with (StaticHook.settings s).
  destruct (Z.eqb_spec (user_id me) (teto_bot_id (StaticHook.settings s)));
    [done|].
  rewrite Hmiku, Z.eqb_refl. unfold StaticHook._handle_as_miku. rewrite Hbot.
  change (StaticHook._is_dual_mention_trigger
            (StaticHook._expire_pending s now_sweep) message)
    with (StaticHook._is_dual_mention_trigger s message).
  rewrite Htrig. cbn [negb].
  change (StaticHook._build_miku_tease_lines
            (StaticHook._expire_pending s now_sweep) fuel)
    with (StaticHook._build_miku_tease_lines s fuel).
  by rewrite Hlines.
Qed.

(** X5: the hook that asks for a generated script never touches its
    Active-Channel Set in [handle_message], and it answers true exactly
    when it is enabled, the bot user is Miku, the channel is not running a
    sequence, the author is not a bot and the message mentions both bots;
    it then registers the message as one new task, and otherwise changes
    nothing. *)
Theorem X5_generated_handle_message (g : GeneratedHook.t) (message : Message) :
  let trigger :=
    dual_mention_hook_enabled (GeneratedHook.settings g) = true
    /\ (exists me, GeneratedHook.bot_user g = Some me
          /\ user_id me = miku_bot_id (GeneratedHook.settings g))
    /\ (channel_id message ∉ GeneratedHook.active_channels g)
    /\ user_bot (author message) = false
    /\ GeneratedHook._is_dual_mention_trigger g message = true in
  (trigger ->
   GeneratedHook.handle_message g message
   = (true, GeneratedHook.add_task g message))
  /\ (~ trigger -> GeneratedHook.handle_message g message = (false, g))
  /\ GeneratedHook.active_channels (GeneratedHook.handle_message g message).2
     = GeneratedHook.active_channels g.
Proof.
  intros trigger. subst trigger.
  unfold GeneratedHook.handle_message, GeneratedHook._handle_as_miku.
  destruct (dual_mention_hook_enabled (GeneratedHook.settings g));
    [|split; [by intros [? _]|done]].
  destruct (GeneratedHook.bot_user g) as [me|];
    [|split; [by intros (_ & (? & ? & _) & _)|done]].
  cbn [negb].
  destruct (Z.eqb_spec (user_id me) (miku_bot_id (GeneratedHook.settings g)))
    as [Hmiku|Hmiku]; cbn [negb];
    [|split; [intros (_ & (? & [= <-] & ?) & _); done|done]].
  case_bool_decide as Hact;
    [split; [by intros (_ & _ & ? & _)|done]|].
  destruct (user_bot (author message));
    [split; [by intros (_ & _ & _ & ? & _)|done]|].
  destruct (GeneratedHook._is_dual_mention_trigger g message); cbn [negb].
  - split; [done|]. split; [|done]. intros Hno. exfalso. apply Hno.
    repeat split; eauto.
  - split; [by intros (_ & _ & _ & _ & ?)|done].
Qed.

End Passes.

Lemma X2_static_handled_only_on_trigger_witness :
  dual_mention_hook_enabled (StaticHook.settings (Scenario.waiting ∅)) = true
  /\ (exists me, StaticHook.bot_user (Scenario.waiting ∅) = Some me
        /\ (user_id me = teto_bot_id (StaticHook.settings (Scenario.waiting ∅))
            \/ user_id me
               = miku_bot_id (StaticHook.settings (Scenario.waiting ∅))))
  /\ (channel_id Scenario.joint_message
      ∉ StaticHook.active_channels (Scenario.waiting ∅))
  /\ user_bot (author Scenario.joint_message) = false
  /\ StaticHook._is_dual_mention_trigger (Scenario.waiting ∅)
       Scenario.joint_message = true.
Proof.
  eapply (X2_static_handled_only_on_trigger (Scenario.waiting ∅) _
            (4 : @float tick_clock) (4 : @float tick_clock) 0
            Scenario.joint_message).
  reflexivity.
Defined.

Lemma X3_teto_records_trigger_witness :
  exists s',
    StaticHook.handle_message (Scenario.waiting ∅) (4 : @float tick_clock)
      (4 : @float tick_clock) 0 Scenario.joint_message = Some (true, s')
    /\ StaticHook.pending_by_channel s' !! 7
       = Some {| StaticHook.created_at := 4 : @float tick_clock;
                 StaticHook.trigger_message_id := 101 |}
    /\ (forall c, c <> 7 ->
          StaticHook.pending_by_channel s' !! c
          = StaticHook.pending_by_channel
              (StaticHook._expire_pending (Scenario.waiting ∅)
                 (4 : @float tick_clock)) !! c)
    /\ StaticHook._tasks s' = StaticHook._tasks (Scenario.waiting ∅)
    /\ StaticHook.active_channels s'
       = StaticHook.active_channels (Scenario.waiting ∅).
Proof.
  apply (X3_teto_records_trigger (Scenario.waiting ∅) 4 4 0
           Scenario.joint_message Scenario.teto); try reflexivity.
  vm_compute. set_solver.
Defined.

Lemma X4_miku_launches_sequence_witness :
  exists lines,
    StaticHook._build_miku_tease_lines (Scenario.miku_static ∅) 3 = Some lines
    /\ StaticHook.handle_message (Scenario.miku_static ∅)
         (4 : @float tick_clock) (4 : @float tick_clock) 3
         Scenario.joint_message
       = Some (true,
               StaticHook.add_task
                 (StaticHook._expire_pending (Scenario.miku_static ∅)
                    (4 : @float tick_clock))
                 {| StaticHook.task_channel_id := 7;
                    StaticHook.task_trigger_message_id := 101;
                    StaticHook.task_lines := lines |}).
Proof.
  apply (X4_miku_launches_sequence (Scenario.miku_static ∅) 4 4 3
           Scenario.joint_message Scenario.miku); try reflexivity.
  - done.
  - vm_compute. set_solver.
Defined.

Lemma X5_generated_handle_message_witness :
  GeneratedHook.handle_message (Scenario.failing Py.CancelledError ∅)
    Scenario.joint_message
  = (true,
     GeneratedHook.add_task (Scenario.failing Py.CancelledError ∅)
       Scenario.joint_message)
  /\ GeneratedHook.handle_message (Scenario.failing Py.CancelledError ∅)
       Scenario.partner_message
     = (false, Scenario.failing Py.CancelledError ∅).
Proof.
  split.
  - apply (X5_generated_handle_message (Scenario.failing Py.CancelledError ∅)
             Scenario.joint_message).
    repeat split; try reflexivity.
    + exists Scenario.miku. by split.
    + vm_compute. set_solver.
  - apply (X5_generated_handle_message (Scenario.failing Py.CancelledError ∅)
             Scenario.partner_message).
    intros (_ & _ & _ & Hbot & _). discriminate Hbot.
Defined.

(** ** Partial and complete sequences *)

Section Sequences.





End Sequences.


(** ** The generated script on its way to the channel *)

Section GeneratedScript.
Context `{FloatOps}.
Import GeneratedHook.

(** X7: the callback returned [dynamic_lines].  Its blank lines are
    dropped and the others stripped.  If nothing is left, the builder
    returns no lines and [_run_miku_sequence] returns at once, with the hook
    as it was and nothing printed or sent.  Otherwise, with fuel for the
    line count, the builder returns exactly [max(1, count)] lines, line [i]
    being kept line [i mod n] of the [n] kept ones, and
    [_run_miku_sequence] is [_run_sequence] on these lines, the message's
    channel and the message's id. *)
Theorem X7_generated_script_delivery (g : t) (gw : gateway) (fuel : nat)
    (message : Message) (callback : Message -> Z -> Py.outcome (list string))
    (dynamic_lines : list string) :
  let count := Py.max 1 (teto_fear_message_count (settings g)) in
  let kept :=
    map Py.strip
      (filter (fun line =>
                 MikuFearLineGenerator.nonempty (Py.strip line) = true)
         dynamic_lines) in
  build_miku_tease_lines g = Some callback ->
  callback message count = Py.Returns dynamic_lines ->
  (kept = [] ->
   _build_miku_tease_lines g fuel message = ([], Py.Returns [])
   /\ _run_miku_sequence g gw fuel message = (g, [], Py.Returns tt))
  /\ (kept <> [] -> (Z.to_nat count <= fuel)%nat ->
      exists lines,
        _build_miku_tease_lines g fuel message = ([], Py.Returns lines)
        /\ Py.len lines = count
        /\ (forall i : nat, (i < Z.to_nat count)%nat ->
              lines !! i = kept !! (i mod length kept)%nat)
        /\ _run_miku_sequence g gw fuel message
           = _run_sequence g gw (channel_id message) (message_id message)
               lines).
Proof.
  intros count kept Hcb Hret.
  assert (Hcount : 1 <= count) by (unfold count, Py.max; lia).
  split.
  - intros Hkept.
    assert (Hb : _build_miku_tease_lines g fuel message = ([], Py.Returns [])).
    { unfold _build_miku_tease_lines. fold count. rewrite Hcb, Hret.
      fold kept. by rewrite Hkept. }
    split; [done|]. unfold _run_miku_sequence. by rewrite Hb.
  - intros Hkept Hfuel.
    destruct (expand_lines_positions fuel kept count)
      as (lines & Hlines & Hlen & Hpos); [done | lia | done |].
    exists lines.
    assert (Hb : _build_miku_tease_lines g fuel message
                 = ([], Py.Returns lines)).
    { unfold _build_miku_tease_lines. fold count. rewrite Hcb, Hret.
      fold kept. destruct kept as [|k kept']; [done|]. by rewrite Hlines. }
    split; [done|]. split; [unfold Py.len; lia|]. split; [done|].
    unfold _run_miku_sequence. rewrite Hb.
    destruct lines as [|l lines']; [simpl in Hlen; lia|].
    destruct (_run_sequence g gw _ _ _) as [[g' trace] result]. done.
Qed.

End GeneratedScript.

Lemma X7_generated_script_delivery_witness :
  let g := Scenario.answering [" Boo "; "   "; "Run"]%string in
  exists lines,
    GeneratedHook._build_miku_tease_lines g 3 Scenario.joint_message
    = ([], Py.Returns lines)
    /\ Py.len lines = 3
    /\ lines !! 2%nat = Some "Boo"%string.
Proof.
  intros g.
  destruct (X7_generated_script_delivery g (fun _ => Resumed) 3
              Scenario.joint_message
              (fun _ _ => Py.Returns [" Boo "; "   "; "Run"]%string)
              [" Boo "; "   "; "Run"]%string eq_refl eq_refl) as [_ Hkept].
  destruct Hkept as (lines & Hb & Hlen & Hpos & _); [done | vm_compute; lia |].
  exists lines. split; [done|]. split; [done|].
  rewrite Hpos by (vm_compute; lia). reflexivity.
Defined.

(** ** More on strings: stripping and material words *)

Section MoreStrings.
Import Py.

Lemma str_app_assoc (a b c : string) : (a +:+ b) +:+ c = a +:+ (b +:+ c).
Proof.
  induction a as [|x a IH]; [done|].
  change (String x ((a +:+ b) +:+ c) = String x (a +:+ (b +:+ c))).
  by f_equal.
Qed.

Lemma str_app_nil_r (a : string) : a +:+ EmptyString = a.
Proof.
  induction a as [|x a IH]; [done|].
  change (String x (a +:+ EmptyString) = String x a). by f_equal.
Qed.

Lemma str_length_app (a b : string) :
  String.length (a +:+ b) = (String.length a + String.length b)%nat.
Proof.
  induction a as [|x a IH]; [done|].
  change (S (String.length (a +:+ b))
          = S (String.length a + String.length b)). by f_equal.
Qed.

Lemma str_app_inj_length (a a' x y : string) :
  String.length a = String.length a' ->
  a +:+ x = a' +:+ y -> a = a' /\ x = y.
Proof.
  revert a'. induction a as [|c a IH]; intros [|c' a']; try done.
  intros [= Hlen] Heq.
  change (String c (a +:+ x) = String c' (a' +:+ y)) in Heq.
  injection Heq as -> Heq. destruct (IH a' Hlen Heq) as [-> ->]. done.
Qed.

Lemma lower_length (s : string) : String.length (lower s) = String.length s.
Proof. induction s as [|c s IH]; [done|]. cbn [lower String.length]. by f_equal. Qed.

(** A piece of a text that is in lower case is in lower case. *)
Lemma lower_substring (h a w b : string) :
  lower h = h -> h = a +:+ w +:+ b -> lower w = w.
Proof.
  intros Hl ->. rewrite !lower_app in Hl.
  apply str_app_inj_length in Hl as [_ Hl]; [|apply lower_length].
  apply str_app_inj_length in Hl as [Hw _]; [done | apply lower_length].
Qed.

Lemma lstrip_head (s : string) :
  lstrip s = EmptyString
  \/ exists c r, lstrip s = String c r /\ isspace c = false.
Proof.
  induction s as [|c s IH]; simpl; [by left|].
  destruct (isspace c) eqn:Hc; [done | right; eauto].
Qed.

Lemma rstrip_idem (s : string) : rstrip (rstrip s) = rstrip s.
Proof.
  induction s as [|c s IH]; [done|]. cbn [rstrip].
  destruct (rstrip s) as [|d r] eqn:Hr.
  - destruct (isspace c) eqn:Hc; [done|]. cbn [rstrip]. by rewrite Hc.
  - cbn [rstrip]. cbn [rstrip] in IH. by rewrite IH.
Qed.

Lemma rstrip_head (c : ascii) (s : string) :
  isspace c = false -> exists r, rstrip (String c s) = String c r.
Proof.
  intros Hc. cbn [rstrip]. destruct (rstrip s); [rewrite Hc|]; eauto.
Qed.

Lemma strip_idem (s : string) : strip (strip s) = strip s.
Proof.
  unfold strip. destruct (lstrip_head s) as [->|(c & r & -> & Hc)]; [done|].
  destruct (rstrip_head c r Hc) as [r' Hr']. rewrite Hr'.
  cbn [lstrip]. rewrite Hc, <- Hr'. apply rstrip_idem.
Qed.

Lemma str_in_iff (w : string) (l : list string) :
  MikuFearLineGenerator.str_in w l = true <-> w ∈ l.
Proof.
  unfold MikuFearLineGenerator.str_in. rewrite existsb_exists. split.
  - intros (x & Hin & Heq). apply String.eqb_eq in Heq as ->.
    by apply list_elem_of_In.
  - intros Hin. exists w. split; [by apply list_elem_of_In|].
    apply String.eqb_refl.
Qed.

Lemma chars_app (a b : string) :
  list_ascii_of_string (a +:+ b)
  = list_ascii_of_string a ++ list_ascii_of_string b.
Proof.
  induction a as [|c a IH]; [done|].
  change (c :: list_ascii_of_string (a +:+ b)
          = c :: (list_ascii_of_string a ++ list_ascii_of_string b)).
  by f_equal.
Qed.

Lemma contains_join_elem (w sep line : string) (lines : list string) :
  line ∈ lines -> contains w line = true ->
  contains w (join sep lines) = true.
Proof.
  rewrite !contains_iff. intros Hin (a & b & ->).
  induction lines as [|x lines IH]; [by apply elem_of_nil in Hin|].
  destruct lines as [|y lines].
  - apply list_elem_of_singleton in Hin as <-. simpl. eauto.
  - change (join sep (x :: y :: lines))
      with (x +:+ sep +:+ join sep (y :: lines)).
    apply elem_of_cons in Hin as [<- |Hin].
    + exists a, (b +:+ sep +:+ join sep (y :: lines)).
      by rewrite !str_app_assoc.
    + destruct (IH Hin) as (a' & b' & ->).
      exists (x +:+ sep +:+ a'), b'. by rewrite !str_app_assoc.
Qed.

Lemma lower_join (sep : string) (lines : list string) :
  lower (join sep lines) = join (lower sep) (map lower lines).
Proof.
  induction lines as [|x lines IH]; [done|].
  destruct lines as [|y lines]; [done|].
  change (join sep (x :: y :: lines))
    with (x +:+ sep +:+ join sep (y :: lines)).
  rewrite !lower_app, IH. done.
Qed.

End MoreStrings.

(** ** Material words *)

Section MaterialWords.
Import Py MikuFearLineGenerator.

Lemma findall_from_words (s run : string) :
  Forall (fun c => is_material_char c = true) (list_ascii_of_string run) ->
  Forall (material_word_in (run +:+ s)) (findall_from run s).
Proof.
  revert run. induction s as [|c s IH]; intros run Hrun; cbn [findall_from].
  - unfold close_run. case_match; [|by constructor].
    constructor; [|by constructor]. split; [by apply Nat.leb_le|].
    split; [done|]. exists EmptyString, EmptyString.
    by rewrite str_app_nil_r.
  - destruct (is_material_char c) eqn:Hc.
    + replace (run +:+ String c s) with ((run +:+ String c EmptyString) +:+ s)
        by (by rewrite str_app_assoc).
      apply IH. rewrite chars_app. apply Forall_app. split; [done|].
      by repeat constructor.
    + apply Forall_app. split.
      * unfold close_run. case_match; [|by constructor].
        constructor; [|by constructor]. split; [by apply Nat.leb_le|].
        split; [done|]. by exists EmptyString, (String c s).
      * specialize (IH EmptyString ltac:(by constructor)).
        eapply Forall_impl; [exact IH|].
        intros w (Hlen & Hchars & a & b & Hab). split; [done|]. split; [done|].
        exists (run +:+ String c a), b. rewrite str_app_assoc.
        change (EmptyString +:+ s) with s in Hab. rewrite Hab. done.
Qed.

Lemma collect_material_invariant (P : string -> Prop)
    (raw_words material : list string) :
  Forall P raw_words ->
  Forall P material ->
  Forall (fun w => w ∉ MATERIAL_STOPWORDS) material ->
  NoDup material ->
  (length material < 8)%nat ->
  let result := collect_material raw_words material in
  Forall P result
  /\ Forall (fun w => w ∉ MATERIAL_STOPWORDS) result
  /\ NoDup result
  /\ (length result <= 8)%nat.
Proof.
  revert material.
  induction raw_words as [|word rest IH];
    intros material Hraw Hmat Hstop Hnd Hlen; cbn [collect_material].
  - repeat split; [done..|lia].
  - apply Forall_cons in Hraw as [Hword Hraw].
    destruct (str_in word MATERIAL_STOPWORDS) eqn:Hs; [by apply IH|].
    destruct (str_in word material) eqn:Hm; [by apply IH|].
    assert (Hnew : word ∉ material).
    { intros Hin. apply str_in_iff in Hin. congruence. }
    assert (Hns : word ∉ MATERIAL_STOPWORDS).
    { intros Hin. apply str_in_iff in Hin. congruence. }
    assert (Hmat' : Forall P (material ++ [word])).
    { apply Forall_app. split; [done | by repeat constructor]. }
    assert (Hstop' : Forall (fun w => w ∉ MATERIAL_STOPWORDS)
                       (material ++ [word])).
    { apply Forall_app. split; [done | by repeat constructor]. }
    assert (Hnd' : NoDup (material ++ [word])).
    { apply NoDup_app. split; [done|]. split; [|apply NoDup_singleton].
      intros x Hx ->%list_elem_of_singleton. done. }
    destruct (Z.leb_spec 8 (len (material ++ [word]))) as [Hfull|Hroom].
    + repeat split; [done..|]. rewrite length_app. simpl. lia.
    + apply IH; [done..|]. unfold len in Hroom. lia.
Qed.

(** X8: [_extract_material_words] returns at most eight words, all
    different and none of them a stop word; each is at least four
    characters long, made of letters, digits and apostrophes only, in
    lower case, and occurs in the lower-cased text. *)
Theorem X8_material_words (text : string) :
  let words := _extract_material_words text in
  (length words <= 8)%nat
  /\ NoDup words
  /\ forall w, w ∈ words ->
       (w ∉ MATERIAL_STOPWORDS)
       /\ (4 <= String.length w)%nat
       /\ Forall (fun c => is_material_char c = true) (list_ascii_of_string w)
       /\ lower w = w
       /\ contains w (lower text) = true.
Proof.
  intros words. subst words. unfold _extract_material_words.
  pose proof (findall_from_words (lower text) EmptyString
                ltac:(by constructor)) as Hraw.
  change (EmptyString +:+ lower text) with (lower text) in Hraw.
  destruct (collect_material_invariant (material_word_in (lower text))
              (findall_from EmptyString (lower text)) [])
    as (HP & Hstop & Hnd & Hlen);
    [done | by constructor | by constructor | by constructor | simpl; lia |].
  split; [done|]. split; [done|]. intros w Hw.
  rewrite Forall_forall in HP, Hstop.
  destruct (HP w Hw) as (Hl & Hc & a & b & Hab).
  split; [by apply Hstop|]. split; [done|]. split; [done|]. split.
  - by apply (lower_substring (lower text) a w b); [apply lower_idem|].
  - apply contains_iff. eauto.
Qed.

(** X9: only the first five material words are looked for.  The overlap
    test gives the same answer on the whole list and on its first five
    words, and it succeeds as soon as one of these five occurs in the
    lower-cased text of some line. *)
Theorem X9_material_overlap (lines material_words : list string) :
  _has_material_overlap lines material_words
  = _has_material_overlap lines (take 5 material_words)
  /\ forall w line,
       w ∈ take 5 material_words -> line ∈ lines ->
       contains w (lower line) = true ->
       _has_material_overlap lines material_words = true.
Proof.
  unfold _has_material_overlap. rewrite !slice_to_nonneg by lia.
  split; [by rewrite take_take|].
  intros w line Hw Hline Hc. apply existsb_exists. exists w.
  split; [by apply list_elem_of_In|].
  rewrite lower_join. apply (contains_join_elem w _ (lower line)); [|done].
  apply list_elem_of_fmap. eauto.
Qed.

End MaterialWords.

Lemma X9_material_overlap_witness :
  MikuFearLineGenerator._has_material_overlap
    ["Hello"; "Your EXAM is mine"]%string ["exam"; "tomorrow"]%string = true.
Proof.
  destruct (X9_material_overlap ["Hello"; "Your EXAM is mine"]%string
              ["exam"; "tomorrow"]%string) as [_ Hfound].
  apply (Hfound "exam"%string "Your EXAM is mine"%string);
    [set_solver | set_solver | reflexivity].
Defined.

(** ** The shape of a parsed script *)

Section ParsedScript.
Context `{FloatOps}.
Import Py MikuFearLineGenerator.

Lemma filter_nonempty_clean (parsed : list string) :
  Forall (fun line => strip line = line) parsed ->
  Forall clean_line (filter (fun line => nonempty line = true) parsed).
Proof.
  intros Hall. apply Forall_forall. intros line Hin.
  apply list_elem_of_filter in Hin as [Hne Hin].
  rewrite Forall_forall in Hall. split; [|by apply Hall].
  by destruct line.
Qed.

Lemma plain_lines_stripped (candidate : string) :
  Forall (fun line => strip line = line) (plain_lines candidate).
Proof.
  unfold plain_lines. apply Forall_forall. intros line Hin.
  apply list_elem_of_filter in Hin as [_ Hin].
  apply list_elem_of_fmap in Hin as (raw & -> & _). apply strip_idem.
Qed.

Lemma extract_lines_clean (rt : Runtime) (text : string) :
  Forall clean_line (_extract_lines_from_text rt text).
Proof.
  assert (Hitems : forall items : list pyobj,
            Forall (fun line => strip line = line)
              (map (fun item => strip (str rt item)) items)).
  { intros items. apply Forall_forall. intros line Hin.
    apply list_elem_of_fmap in Hin as (item & -> & _). apply strip_idem. }
  assert (Hpick : forall parsed candidate,
            Forall (fun line => strip line = line) parsed ->
            Forall clean_line
              (filter (fun line => nonempty line = true)
                 match parsed with
                 | [] => plain_lines (strip (replace candidate "```" EmptyString))
                 | _ => parsed
                 end)).
  { intros parsed candidate Hp. apply filter_nonempty_clean.
    destruct parsed; [apply plain_lines_stripped | done]. }
  assert (Hplain : forall candidate,
            Forall clean_line
              (filter (fun line => nonempty line = true)
                 (plain_lines (strip (replace candidate "```" EmptyString))))).
  { intros candidate. apply (Hpick [] candidate). constructor. }
  unfold _extract_lines_from_text.
  destruct (startswith (strip text) "[" || startswith (strip text) "{");
    [|apply Hplain].
  destruct (json_loads rt (strip text)) as [[| | | | |items|decoded]|];
    try apply Hplain; [apply Hpick, Hitems|].
  destruct (dict_get "lines" decoded) as [[| | | | |items|]|];
    try (apply Hpick, Hitems);
    (destruct (dict_get "answer" decoded) as [[| | | |answer| |]|];
     apply Hplain).
Qed.


(** X10: on a script of at least one line the mention step leaves the
    token present in the joined text; it changes nothing when the token is
    already there, only the first line otherwise; and a second pass of the
    step changes nothing, so the mention is never added twice. *)
Theorem X10_mention_step (token : string) (lines : list string) :
  lines <> [] ->
  let lines' := with_mention token lines in
  contains token (join " " lines') = true
  /\ (contains token (join " " lines) = true -> lines' = lines)
  /\ tail lines' = tail lines
  /\ with_mention token lines' = lines'.
Proof.
  intros Hne lines'. subst lines'.
  destruct (contains token (join " " lines)) eqn:Hc.
  - assert (Hsame : with_mention token lines = lines).
    { unfold with_mention. by rewrite Hc. }
    rewrite !Hsame. by rewrite Hc.
  - destruct lines as [|first rest]; [done|].
    assert (Hstep : with_mention token (first :: rest)
                    = (token +:+ " " +:+ first) :: rest).
    { unfold with_mention. by rewrite Hc. }
    assert (Hin : contains token (join " " ((token +:+ " " +:+ first) :: rest))
                  = true).
    { apply (contains_join_elem token " " (token +:+ " " +:+ first));
        [set_solver | apply contains_self_prefix]. }
    rewrite !Hstep. split; [done|]. split; [done|]. split; [done|].
    unfold with_mention. by rewrite Hin.
Qed.

(** X11: every line that [_extract_lines_from_text] returns is non-empty
    and has no white space at either end; and a text whose stripped form
    opens with neither a bracket nor a brace is parsed without the JSON
    decoder, so the result is the same under any decoder. *)
Theorem X11_extracted_lines (rt rt' : Runtime) (text : string) :
  Forall (fun line => line <> EmptyString /\ strip line = line)
    (_extract_lines_from_text rt text)
  /\ (startswith (strip text) "[" = false ->
      startswith (strip text) "{" = false ->
      _extract_lines_from_text rt text = _extract_lines_from_text rt' text).
Proof.
  split; [apply extract_lines_clean|].
  intros H1 H2. unfold _extract_lines_from_text. by rewrite H1, H2.
Qed.


End ParsedScript.

Lemma X10_mention_step_witness :
  MikuFearLineGenerator.with_mention "<@123>" ["Hey there"; "Run"]%string
  = ["<@123> Hey there"; "Run"]%string
  /\ MikuFearLineGenerator.with_mention "<@123>"
       ["Hey"; "Run, <@123>"]%string
     = ["Hey"; "Run, <@123>"]%string.
Proof.
  split; [reflexivity|].
  destruct (X10_mention_step "<@123>" ["Hey"; "Run, <@123>"]%string)
    as (_ & Hsame & _); [done|].
  apply Hsame. reflexivity.
Defined.

Lemma X11_extracted_lines_witness :
  MikuFearLineGenerator._extract_lines_from_text Scenario.no_json
    "1. Boo  "
  = MikuFearLineGenerator._extract_lines_from_text
      {| Py.json_loads := fun _ => Some Py.PyNone;
         Py.repr := fun _ => "x"%string |}
      "1. Boo  ".
Proof.
  apply (X11_extracted_lines Scenario.no_json _ "1. Boo  "); reflexivity.
Defined.


(** * The short-term memory store *)

Section MemoryStoreFacts.
Import ShortTermMemoryStore.














End MemoryStoreFacts.

Section MemoryStoreProperties.
Import ShortTermMemoryStore.




Lemma valid_role (ro : string) :
  ro = "user"%string \/ ro = "assistant"%string ->
  negb (String.eqb ro "user" || String.eqb ro "assistant") = false.
Proof. by intros [-> | ->]. Qed.

(** X13: a store that is not initialized refuses every operation with the
    "not initialized" [RuntimeError], with two exceptions taken before the
    connection is asked for: a role other than "user" and "assistant"
    makes [append_message] raise [ValueError] on any store, and
    [prune_inactive_channels] with an idle time of zero or less returns
    without doing anything.  A new store is not initialized and keeps at
    least two messages per channel. *)
Theorem X13_store_errors (self : t) (now a b idle : Z) (ro co : string)
    (by_user : option Z) (why : option string) (turns : Z) :
  let closed := RuntimeError "Memory store is not initialized" in
  (_conn (init turns) = None /\ 2 <= max_messages (init turns))
  /\ (ro <> "user"%string -> ro <> "assistant"%string ->
      append_message self now a ro co
      = Err (ValueError ("Invalid role: " +:+ ro)))
  /\ (idle <= 0 -> prune_inactive_channels self now idle = Ok self)
  /\ (_conn self = None ->
      (ro = "user"%string \/ ro = "assistant"%string ->
       append_message self now a ro co = Err closed)
      /\ get_history self a = Err closed
      /\ clear_channel self a = Err closed
      /\ ban_user self now a b by_user why = Err closed
      /\ unban_user self a b = Err closed
      /\ is_user_banned self a b = Err closed
      /\ set_user_calls_miku self now a b co = Err closed
      /\ set_miku_calls_user self now a b co = Err closed
      /\ get_user_call_preferences self a b = Err closed
      /\ (0 < idle -> prune_inactive_channels self now idle = Err closed)).
Proof.
  intros closed. split; [split; [done | unfold init, Py.max; simpl; lia]|].
  split.
  { intros H1 H2. unfold append_message.
    apply String.eqb_neq in H1, H2. by rewrite H1, H2. }
  split.
  { intros Hidle. unfold prune_inactive_channels.
    by destruct (Z.leb_spec idle 0); [|lia]. }
  intros Hconn.
  unfold append_message, get_history, clear_channel, ban_user, unban_user,
    is_user_banned, set_user_calls_miku, set_miku_calls_user,
    get_user_call_preferences, prune_inactive_channels, _require_conn.
  rewrite Hconn. repeat split; try done.
  - intros Hro. by rewrite valid_role.
  - intros Hidle. by destruct (Z.leb_spec idle 0); [lia|].
Qed.



End MemoryStoreProperties.

Lemma X13_store_errors_witness :
  ShortTermMemoryStore.append_message Scenario.store 0 1 "system" "x"
  = ShortTermMemoryStore.Err (ShortTermMemoryStore.ValueError "Invalid role: system")
  /\ ShortTermMemoryStore.append_message (ShortTermMemoryStore.init 3) 0 1 "user" "x"
     = ShortTermMemoryStore.Err
         (ShortTermMemoryStore.RuntimeError "Memory store is not initialized")
  /\ ShortTermMemoryStore.prune_inactive_channels (ShortTermMemoryStore.init 3) 0 0
     = ShortTermMemoryStore.Ok (ShortTermMemoryStore.init 3).
Proof.
  destruct (X13_store_errors Scenario.store 0 1 1 0 "system" "x" None None 3)
    as (_ & Hrole & _).
  destruct (X13_store_errors (ShortTermMemoryStore.init 3) 0 1 1 0 "user" "x" None None 3)
    as (_ & _ & Hprune & Hclosed).
  destruct (Hclosed eq_refl) as [Happend _].
  split; [by apply Hrole|]. split; [apply Happend; by left | by apply Hprune].
Defined.



Section MemoryStoreTables.
Import ShortTermMemoryStore.





End MemoryStoreTables.




(** * The replay log *)

Section ReplayLog.
Import ChatReplayLogger.

(** What the iteration yields from a fallback id that is not negative. *)
Lemma iter_lines_entries (env : Env) (guild_id : option Z) (raws : list string)
    (fallback_id : Z) :
  0 <= fallback_id ->
  Forall (fun entry =>
            0 < fst entry
            /\ eq_str (Py.dict_get "type" (snd entry)) "chat" = true
            /\ in_guild env guild_id entry)
    (iter_lines env guild_id fallback_id raws).
Proof.
  revert fallback_id. induction raws as [|raw rest IH]; intros fb Hfb;
    cbn [iter_lines]; [by constructor|].
  destruct (is_empty _); [by apply IH|].
  destruct (Py.json_loads _ _) as [[| | | | | |item]|]; try by apply IH.
  destruct (eq_str (Py.dict_get "type" item) "chat") eqn:Htype; cbn [negb];
    [|by apply IH].
  assert (Hid : exists record_id fb',
            match positive_int (Py.dict_get "id" item) with
            | Some raw_id => (raw_id, if fb <? raw_id then raw_id else fb)
            | None => (fb + 1, fb + 1)
            end = (record_id, fb') /\ 0 < record_id /\ 0 <= fb').
  { destruct (positive_int (Py.dict_get "id" item)) as [raw_id|] eqn:Hraw.
    - eexists _, _. split; [done|].
      assert (0 < raw_id).
      { unfold positive_int in Hraw.
        destruct (Py.dict_get "id" item) as [[| [] |n| | | |]|]; try done.
        - by injection Hraw as <-.
        - destruct (Z.ltb_spec 0 n); [|done]. by injection Hraw as <-. }
      split; [done|]. destruct (fb <? raw_id); lia.
    - eexists _, _. split; [done|]. lia. }
  destruct Hid as (record_id & fb' & -> & Hpos & Hfb').
  destruct guild_id as [g|].
  - destruct (eq_int env (Py.dict_get "guild_id" item) g) eqn:Hg; cbn [negb];
      [|by apply IH].
    constructor; [|by apply IH]. done.
  - constructor; [|by apply IH]. done.
Qed.

Lemma iter_lines_filter (env : Env) (g : Z) (raws : list string)
    (fallback_id : Z) :
  iter_lines env (Some g) fallback_id raws
  = filter (fun entry =>
              eq_int env (Py.dict_get "guild_id" (snd entry)) g = true)
      (iter_lines env None fallback_id raws).
Proof.
  revert fallback_id. induction raws as [|raw rest IH]; intros fb;
    cbn [iter_lines]; [done|].
  destruct (is_empty _); [by apply IH|].
  destruct (Py.json_loads _ _) as [[| | | | | |item]|]; try by apply IH.
  destruct (negb (eq_str (Py.dict_get "type" item) "chat")); [by apply IH|].
  destruct (match positive_int (Py.dict_get "id" item) with
            | Some raw_id => (raw_id, if fb <? raw_id then raw_id else fb)
            | None => (fb + 1, fb + 1)
            end) as [record_id fb'].
  rewrite filter_cons. cbn [snd].
  destruct (eq_int env (Py.dict_get "guild_id" item) g) eqn:Hg; cbn [negb].
  - rewrite decide_True by done. by rewrite IH.
  - rewrite decide_False by (by intros ?). by apply IH.
Qed.


Lemma iter_records_filter (self : t) (env : Env) (g : Z) :
  _iter_chat_records_sync self env (Some g)
  = filter (fun entry =>
              eq_int env (Py.dict_get "guild_id" (snd entry)) g = true)
      (_iter_chat_records_sync self env None).
Proof.
  unfold _iter_chat_records_sync.
  destruct (log_file self); [apply iter_lines_filter | done].
Qed.

(** X19: every record that [_iter_chat_records_sync] yields has a
    positive index and the type "chat".  The index of a record does not
    depend on the guild asked for: the records of a guild are exactly the
    records of the whole log whose [guild_id] equals it, under the indices
    they have there. *)
Theorem X19_record_indices (self : t) (env : Env) (guild_id : option Z)
    (g : Z) :
  Forall (fun entry =>
            0 < fst entry
            /\ eq_str (Py.dict_get "type" (snd entry)) "chat" = true)
    (_iter_chat_records_sync self env guild_id)
  /\ _iter_chat_records_sync self env (Some g)
     = filter (fun entry =>
                 eq_int env (Py.dict_get "guild_id" (snd entry)) g = true)
         (_iter_chat_records_sync self env None).
Proof.
  split; [|apply iter_records_filter].
  unfold _iter_chat_records_sync. destruct (log_file self) as [content|];
    [|by constructor].
  eapply Forall_impl; [apply iter_lines_entries; lia|].
  by intros entry (? & ? & _).
Qed.



End ReplayLog.

Section ReplayLogReads.
Import ChatReplayLogger.







End ReplayLogReads.

Section ReplayLogWrites.
Import ChatReplayLogger.






End ReplayLogWrites.




Section GeneratedStrategy.
Context `{FloatOps}.


End GeneratedStrategy.


(** ** More on the static-script hook's passes *)

Section StaticPasses.
Context `{FloatOps}.
Import StaticHook.

(** X25: Teto's hook, idle on the channel, sees a message written by a
    bot.  If the author is not Miku, or the channel has no entry, or its
    entry is stale at the sweep of this pass, nothing happens beyond the
    sweep: the result is false and no task is registered. *)
Theorem X25_bot_message_without_entry (s : t) (now_sweep now_record : float)
    (fuel : nat) (message : Message) (me : User) :
  dual_mention_hook_enabled (settings s) = true ->
  bot_user s = Some me ->
  user_id me = teto_bot_id (settings s) ->
  channel_id message ∉ active_channels s ->
  user_bot (author message) = true ->
  user_id (author message) <> miku_bot_id (settings s)
  \/ pending_by_channel s !! channel_id message = None
  \/ (exists p, pending_by_channel s !! channel_id message = Some p
                /\ is_stale now_sweep
                     (teto_wait_miku_timeout_seconds (settings s)) p = true) ->
  handle_message s now_sweep now_record fuel message
  = Some (false, _expire_pending s now_sweep).
Proof.
  intros Hen Hme Hid Hidle Hbot Hcase.
  unfold handle_message. rewrite Hen, Hme. cbn [negb].
  rewrite bool_decide_eq_false_2 by done.
  change (settings (_expire_pending s now_sweep)) with (settings s).
  rewrite Hid, Z.eqb_refl. unfold _handle_as_teto. rewrite Hbot.
  unfold _handle_teto_bot_message.
  change (settings (_expire_pending s now_sweep)) with (settings s).
  destruct (Z.eqb_spec (user_id (author message)) (miku_bot_id (settings s)))
    as [Hmiku|Hother]; cbn [negb]; [|done].
  assert (Hgone : pending_by_channel (_expire_pending s now_sweep)
                    !! channel_id message = None).
  { rewrite expire_pending_lookup.
    destruct Hcase as [?|[-> |(p & -> & ->)]]; done. }
  unfold pop_pending. rewrite Hgone. f_equal. f_equal.
  destruct (_expire_pending s now_sweep) as [b st p a ts] eqn:Hs.
  unfold set_pending. cbn in *. f_equal. by apply delete_id.
Qed.

(** X26: a pass of [handle_message] never changes the Active-Channel
    Set, the bot user or the settings, and it registers at most one task,
    after the tasks already there. *)
Theorem X26_pass_frame (s s' : t) (now_sweep now_record : float) (fuel : nat)
    (message : Message) (handled : bool) :
  handle_message s now_sweep now_record fuel message = Some (handled, s') ->
  active_channels s' = active_channels s
  /\ bot_user s' = bot_user s
  /\ settings s' = settings s
  /\ (_tasks s' = _tasks s \/ exists task, _tasks s' = _tasks s ++ [task]).
Proof.
  unfold handle_message.
  destruct (negb _); [intros [= <- <-]; by auto|].
  destruct (bot_user s) as [me|] eqn:Hme; [|intros [= <- <-]; by auto].
  set (swept := _expire_pending s now_sweep).
  assert (Hframe : forall x, x = swept \/
            (exists p, x = set_pending swept p) \/
            (exists p task, x = add_task (set_pending swept p) task) \/
            (exists task, x = add_task swept task) ->
            active_channels x = active_channels s
            /\ bot_user x = bot_user s
            /\ settings x = settings s
            /\ (_tasks x = _tasks s \/ exists task, _tasks x = _tasks s ++ [task])).
  { intros x [-> |[[p ->]|[(p & task & ->)|[task ->]]]];
      repeat split; eauto. }
  rewrite <- Hme.
  destruct (bool_decide _); [intros [= <- <-]; apply Hframe; by left|].
  destruct (_ =? _).
  - unfold _handle_as_teto, _handle_teto_bot_message, pop_pending.
    destruct (user_bot _).
    + destruct (negb _); [intros [= <- <-]; apply Hframe; by left|].
      destruct (pending_by_channel swept !! _).
      * destruct (_build_teto_fear_lines _ _); [|done].
        intros [= <- <-]. apply Hframe. right. right. left. eauto.
      * intros [= <- <-]. apply Hframe. right. left. eauto.
    + destruct (_is_dual_mention_trigger _ _); intros [= <- <-];
        apply Hframe; [right; left; eauto | by left].
  - destruct (_ =? _); [|intros [= <- <-]; apply Hframe; by left].
    unfold _handle_as_miku. destruct (user_bot _);
      [intros [= <- <-]; apply Hframe; by left|].
    destruct (negb _); [intros [= <- <-]; apply Hframe; by left|].
    destruct (_build_miku_tease_lines _ _); [|done].
    intros [= <- <-]. apply Hframe. right. right. right. eauto.
Qed.

(** X27: the expiry sweep only removes entries, removes no entry that
    fails its age test, and a second sweep at the same clock reading
    changes nothing. *)
Theorem X27_sweep (s : t) (now : float) :
  pending_by_channel (_expire_pending s now) ⊆ pending_by_channel s
  /\ (forall c p, pending_by_channel s !! c = Some p ->
        is_stale now (teto_wait_miku_timeout_seconds (settings s)) p = false ->
        pending_by_channel (_expire_pending s now) !! c = Some p)
  /\ _expire_pending (_expire_pending s now) now = _expire_pending s now.
Proof.
  split; [|split].
  - apply map_subseteq_spec. intros c p. rewrite expire_pending_lookup.
    destruct (pending_by_channel s !! c) as [q|]; [|done].
    by destruct (is_stale _ _ q).
  - intros c p Hc Hfresh. by rewrite expire_pending_lookup, Hc, Hfresh.
  - assert (Hmap : pending_by_channel (_expire_pending (_expire_pending s now) now)
                   = pending_by_channel (_expire_pending s now)).
    { apply map_eq. intros c. rewrite expire_pending_lookup.
      change (settings (_expire_pending s now)) with (settings s).
      rewrite expire_pending_lookup.
      destruct (pending_by_channel s !! c) as [q|]; [|done].
      by destruct (is_stale _ _ q) eqn:Hq; [|rewrite Hq]. }
    unfold _expire_pending at 1. unfold set_pending.
    fold (_expire_pending (_expire_pending s now) now) in Hmap.
    revert Hmap. unfold _expire_pending at 1. cbn [pending_by_channel set_pending].
    intros ->. by destruct (_expire_pending s now).
Qed.

End StaticPasses.

Lemma X25_bot_message_without_entry_witness :
  StaticHook.handle_message (Scenario.waiting ∅) (6 : @float tick_clock)
    (6 : @float tick_clock) 3 Scenario.partner_message
  = Some (false,
          StaticHook._expire_pending (Scenario.waiting ∅)
            (6 : @float tick_clock)).
Proof.
  apply (X25_bot_message_without_entry (Scenario.waiting ∅) 6 6 3
           Scenario.partner_message Scenario.teto); try reflexivity.
  - vm_compute. set_solver.
  - right. right. eexists. split; reflexivity.
Defined.

Lemma X26_pass_frame_witness :
  StaticHook.active_channels
    (StaticHook.add_task
       (StaticHook._expire_pending (Scenario.miku_static ∅)
          (4 : @float tick_clock))
       {| StaticHook.task_channel_id := 7;
          StaticHook.task_trigger_message_id := 101;
          StaticHook.task_lines :=
            ["Hey <@111>, relax. I run this chat now.";
             "If there is drama, I will win it in one verse.";
             "Teto, keep up. English mode is on."]%string |})
  = StaticHook.active_channels (Scenario.miku_static ∅).
Proof.
  eapply (X26_pass_frame (Scenario.miku_static ∅) _ (4 : @float tick_clock)
            (4 : @float tick_clock) 3 Scenario.joint_message true).
  reflexivity.
Defined.

Lemma X27_sweep_witness :
  StaticHook.pending_by_channel
    (StaticHook._expire_pending (Scenario.waiting ∅) (4 : @float tick_clock))
    !! 7
  = Some {| StaticHook.created_at := 0 : @float tick_clock;
            StaticHook.trigger_message_id := 99 |}.
Proof.
  destruct (X27_sweep (Scenario.waiting ∅) (4 : @float tick_clock))
    as (_ & Hkeep & _).
  apply Hkeep; reflexivity.
Defined.
